(** * Infra-provisioner: the asynchronous provisioning orchestrator

    A shallow embedding of [celery_app/tasks/terraform_tasks.py] as it is
    listed in the repository's walkthrough (SECURITY_ANALYSIS.md, section
    "Terraform Tasks Code"), and the properties of the provisioning
    orchestrator stated over it.

    Python strings are [string], the integer request id is [Z], dictionaries
    are [gmap], the SQLAlchemy session and the worker's file system, logger
    and subprocess calls are explicit state. *)

From Stdlib Require Import ZArith List String Ascii DecimalString DecimalZ DecimalPos Lia.
From stdpp Require Import gmap strings.

Local Open Scope Z_scope.

(** ** Strings *)

Module Str.

(** The two characters a Rocq literal cannot hold conveniently. *)
Definition dq : string := String "034"%char EmptyString.
Definition nl : string := String "010"%char EmptyString.

(** [str(n)] for a Python [int]: decimal digits, a leading minus sign for
    negative numbers. *)
Definition str (z : Z) : string := NilZero.string_of_int (Z.to_int z).

(** [sep.join(parts)] *)
Fixpoint join (sep : string) (parts : list string) : string :=
  match parts with
  | [] => ""
  | [p] => p
  | p :: rest => p +:+ sep +:+ join sep rest
  end.

(** [s[:n]] *)
Definition take (n : nat) (s : string) : string := substring 0 n s.

(** [needle in hay] *)
Fixpoint contains (needle hay : string) : bool :=
  if String.prefix needle hay then true
  else match hay with
       | EmptyString => false
       | String _ hay' => contains needle hay'
       end.

(** [s or t] on strings: the empty string is falsy. *)
Definition or_else (s t : string) : string :=
  match s with EmptyString => t | _ => s end.

(** [s.lower()] on ASCII letters. *)
Definition lower_ascii (c : ascii) : ascii :=
  let n := nat_of_ascii c in
  if (Nat.leb 65 n && Nat.leb n 90)%bool then ascii_of_nat (n + 32) else c.

Fixpoint lower (s : string) : string :=
  match s with
  | EmptyString => EmptyString
  | String c s' => String (lower_ascii c) (lower s')
  end.

Definition starts_with_slash (s : string) : bool :=
  match s with String "/"%char _ => true | _ => false end.

Fixpoint ends_with_slash (s : string) : bool :=
  match s with
  | EmptyString => false
  | String c EmptyString => Ascii.eqb c "/"%char
  | String _ s' => ends_with_slash s'
  end.

(** [os.path.join(a, b)] on POSIX paths. *)
Definition path_join (a b : string) : string :=
  if starts_with_slash b then b
  else match a with
       | EmptyString => b
       | _ => if ends_with_slash a then a +:+ b else a +:+ "/" +:+ b
       end.

End Str.

(** ** Data model *)

(** A row of [resource_requests] (the [ResourceRequest] model), as the task
    reads and writes it. [config] and [admin_notes] are nullable columns. *)
Record ResourceRequest := {
  id : Z;
  name : string;
  resource_type : string;
  config : option (gmap string string);
  status : string;
  admin_notes : option string;
  user_id : Z;
  team_id : Z;
}.

Definition set_status (s : string) (r : ResourceRequest) : ResourceRequest :=
  {| id := id r; name := name r; resource_type := resource_type r;
     config := config r; status := s; admin_notes := admin_notes r;
     user_id := user_id r; team_id := team_id r |}.

Definition set_admin_notes (n : string) (r : ResourceRequest) : ResourceRequest :=
  {| id := id r; name := name r; resource_type := resource_type r;
     config := config r; status := status r; admin_notes := Some n;
     user_id := user_id r; team_id := team_id r |}.

(** [request.admin_notes or ''] *)
Definition notes_or_empty (r : ResourceRequest) : string :=
  default "" (admin_notes r).

(** The dictionaries [{"success": True, "output": ...}] and
    [{"success": False, "error": ...}] that the provisioners return. *)
Inductive outcome :=
| Success (output : string)
| Failure (error : string).

Definition success (o : outcome) : bool :=
  match o with Success _ => true | Failure _ => false end.

(** What [subprocess.run(..., capture_output=True, text=True, timeout=600)]
    can do: return a completed process, or raise one of the two exceptions
    [_run_terraform] catches. *)
Inductive process :=
| Exited (returncode : Z) (stdout stderr : string)
| TimeoutExpired
| FileNotFoundError.

Inductive level := INFO | WARNING | ERROR.

(** The worker's machine: directories with their files, the subprocess
    invocations made so far (working directory and arguments after
    [terraform]), the logger's records, the operating system's randomness
    as seen by [secrets], and the I/O errors the file system is going to
    raise on the coming write operations ([None]: the operation succeeds;
    an exhausted list: every operation succeeds). *)
Record host := {
  fs : gmap string (gmap string string);
  calls : list (string * list string);
  logs : list (level * string);
  entropy : nat -> nat;
  draws : nat;
  io_faults : list (option string);
}.

Definition with_fs (f : gmap string (gmap string string)) (h : host) : host :=
  {| fs := f; calls := calls h; logs := logs h; entropy := entropy h;
     draws := draws h; io_faults := io_faults h |}.

Definition with_io_faults (l : list (option string)) (h : host) : host :=
  {| fs := fs h; calls := calls h; logs := logs h; entropy := entropy h;
     draws := draws h; io_faults := l |}.

Definition with_draws (n : nat) (h : host) : host :=
  {| fs := fs h; calls := calls h; logs := logs h; entropy := entropy h;
     draws := n; io_faults := io_faults h |}.

Definition log (l : level) (msg : string) (h : host) : host :=
  {| fs := fs h; calls := calls h; logs := logs h ++ [(l, msg)];
     entropy := entropy h; draws := draws h; io_faults := io_faults h |}.

Definition record_call (cwd : string) (argv : list string) (h : host) : host :=
  {| fs := fs h; calls := calls h ++ [(cwd, argv)]; logs := logs h;
     entropy := entropy h; draws := draws h; io_faults := io_faults h |}.

(** ** Computations that may raise *)

Inductive res (A : Type) :=
| Ok (a : A)
| Raise (e : string).
Arguments Ok {A} a.
Arguments Raise {A} e.

(** A computation on the worker's machine; the effects made before an
    exception is raised stay. *)
Definition M (A : Type) : Type := host -> res A * host.

Definition ret {A} (a : A) : M A := fun h => (Ok a, h).

Definition bind {A B} (c : M A) (k : A -> M B) : M B :=
  fun h => match c h with
           | (Ok a, h') => k a h'
           | (Raise e, h') => (Raise e, h')
           end.

Definition lift {A} (f : host -> A * host) : M A :=
  fun h => let '(a, h') := f h in (Ok a, h').

Notation "x <- c ;; k" := (bind c (fun x => k))
  (at level 100, c at next level, right associativity).
Notation "c ;;; k" := (bind c (fun _ => k))
  (at level 100, right associativity).

(** ** File system *)

Definition next_io_fault (h : host) : option string * host :=
  match io_faults h with
  | [] => (None, h)
  | f :: rest => (f, with_io_faults rest h)
  end.

(** [os.path.exists(path)] *)
Definition path_exists (path : string) (h : host) : bool :=
  match fs h !! path with Some _ => true | None => false end.

(** [os.makedirs(path, exist_ok=True)] *)
Definition makedirs (path : string) : M unit := fun h =>
  match next_io_fault h with
  | (Some e, h') => (Raise e, h')
  | (None, h') =>
      match fs h' !! path with
      | Some _ => (Ok tt, h')
      | None => (Ok tt, with_fs (<[path := ∅]> (fs h')) h')
      end
  end.

(** [with open(os.path.join(dir, file), "w") as f: f.write(content)] *)
Definition write_file (dir file content : string) : M unit := fun h =>
  match next_io_fault h with
  | (Some e, h') => (Raise e, h')
  | (None, h') =>
      match fs h' !! dir with
      | Some files => (Ok tt, with_fs (<[dir := <[file := content]> files]> (fs h')) h')
      | None => (Raise ("[Errno 2] No such file or directory: " +:+ Str.path_join dir file), h')
      end
  end.

(** [shutil.rmtree(path, ignore_errors=True)] *)
Definition rmtree (path : string) (h : host) : host :=
  with_fs (delete path (fs h)) h.

(** ** The request store, as the task's session sees it *)

(** The rows of [resource_requests], and the errors the store is going to
    raise on the coming commits ([None]: the commit succeeds; an exhausted
    list: every commit succeeds). *)
Record world := {
  rows : gmap Z ResourceRequest;
  db_faults : list (option string);
  machine : host;
}.

Definition with_machine (h : host) (w : world) : world :=
  {| rows := rows w; db_faults := db_faults w; machine := h |}.

Definition wlog (l : level) (msg : string) (w : world) : world :=
  with_machine (log l msg (machine w)) w.

(** [db.query(ResourceRequest).filter(ResourceRequest.id == request_id).first()];
    reads are taken to succeed. *)
Definition query (request_id : Z) (w : world) : option ResourceRequest :=
  rows w !! request_id.

(** [db.commit()] after the session's object for [request_id] was changed
    by [change]: an [UPDATE ... WHERE resource_requests.id = ?] of the
    changed columns, unless the store raises, in which case the
    transaction is rolled back. *)
Definition commit (request_id : Z) (change : ResourceRequest -> ResourceRequest)
  (w : world) : res unit * world :=
  match db_faults w with
  | Some e :: rest =>
      (Raise e, {| rows := rows w; db_faults := rest; machine := machine w |})
  | None :: rest =>
      (Ok tt, {| rows := alter change request_id (rows w); db_faults := rest;
                 machine := machine w |})
  | [] =>
      (Ok tt, {| rows := alter change request_id (rows w); db_faults := [];
                 machine := machine w |})
  end.

(** What a run of a task ends with: a returned dictionary
    [{"status": ..., "message": ...}]; the return after the last commit
    (elided in the listing), which is modelled as carrying the status that
    was committed; a retry scheduled by [self.retry]; or the exception
    [self.retry] re-raises once the retries are used up. *)
Inductive task_result :=
| Returned (status message : string)
| Completed (status : string)
| Retry (exc : string) (countdown : Z)
| Raised (exc : string).

(** [@celery_app.task(bind=True, max_retries=3)] *)
Definition max_retries : nat := 3.

(** [raise self.retry(exc=e, countdown=...)] in a run that is the
    [retries]-th retry of its task: Celery schedules another run unless
    [max_retries] retries were already made, and then re-raises [exc]. *)
Definition self_retry (retries : nat) (exc : string) (countdown : Z) : task_result :=
  if (retries <? max_retries)%nat then Retry exc countdown else Raised exc.

(** The main task cut at its store operations: where a run is. *)
Inductive stage :=
| Start
| Loaded (request : ResourceRequest)
| Claimed (request : ResourceRequest)
| Routed (request : ResourceRequest) (result : outcome)
| Done (r : task_result).

(** A run of the main task among others on the same store. *)
Record attempt := {
  attempt_retries : nat;
  attempt_request : Z;
  attempt_stage : stage;
}.

(** Has the attempt passed the status guard and written ["provisioning"]? *)
Definition claimed (s : stage) : bool :=
  match s with
  | Claimed _ | Routed _ _ | Done (Completed _) => true
  | _ => false
  end.

(** The row of [request_id] is there and its status is not ["approved"]. *)
Definition past_approval (request_id : Z) (w : world) : Prop :=
  exists row, query request_id w = Some row /\ status row <> "approved".

(** An attempt that has not read the request yet, or was skipped. *)
Definition waiting_or_skipped (s : stage) : Prop :=
  s = Start \/ s = Done (Returned "skipped" "Request not approved").

(** Two machines that differ at most in their randomness and in what
    their files hold: the same invocations and log records so far, the
    same errors to come, the same directories. *)
Definition agree (h1 h2 : host) : Prop :=
  calls h1 = calls h2 /\ logs h1 = logs h2 /\ io_faults h1 = io_faults h2 /\
  forall path, path_exists path h1 = path_exists path h2.


(** ** Sample data

    The request of the walkthrough's incident report (id 1, "testdb", no
    configuration, no notes), a worker's machine with an empty workspaces
    directory, and a few behaviours of the tool. *)

Definition sample_request (resource_type status : string) : ResourceRequest :=
  {| id := 1; name := "testdb"; resource_type := resource_type; config := None;
     status := status; admin_notes := None; user_id := 2; team_id := 1 |}.

Definition sample_host : host :=
  {| fs := ∅; calls := []; logs := []; entropy := fun n => (7 * n + 3)%nat;
     draws := 0; io_faults := [] |}.

Definition sample_world (request : ResourceRequest) : world :=
  {| rows := {[ id request := request ]}; db_faults := []; machine := sample_host |}.

Definition sample_base_dir : string := "/srv/infrautomater".

Definition sample_workspace : string :=
  "/srv/infrautomater/terraform/workspaces/request-1".




(** Every subcommand exits with 0; [plan] prints a one-line plan. *)
Definition tool_succeeds (files : gmap string (gmap string string)) (cwd : string)
  (argv : list string) : process :=
  match argv with
  | "plan" :: _ => Exited 0 "Plan: 1 to add, 0 to change, 0 to destroy." ""
  | _ => Exited 0 "" ""
  end.

(** Every subcommand exits with 1 and a diagnostic on standard error. *)
Definition tool_fails (files : gmap string (gmap string string)) (cwd : string)
  (argv : list string) : process :=
  Exited 1 "" "Error: No valid credential sources found".


(** The binary is not installed (the state of the incident report). *)
Definition tool_missing (files : gmap string (gmap string string)) (cwd : string)
  (argv : list string) : process :=
  FileNotFoundError.

Fixpoint replicate (n : nat) (c : ascii) : string :=
  match n with
  | O => EmptyString
  | S n' => String c (replicate n' c)
  end.

(** A plan text of 2003 characters. *)
Definition long_plan : string := replicate 2000 "+"%char +:+ "END".

Definition tool_long_plan (files : gmap string (gmap string string)) (cwd : string)
  (argv : list string) : process :=
  match argv with
  | "plan" :: _ => Exited 0 long_plan ""
  | _ => Exited 0 "" ""
  end.


(** Stand-ins for the parts the listing does not show; the examples do
    not reach them. *)
Definition no_summary (output : string) : option string := None.
Definition same_outcome (o : outcome) : outcome := o.
Definition no_provider_tf (provider : string) : string := "".
Definition no_provisioner (request : ResourceRequest) : M outcome :=
  ret (Failure "not shown in the listing").

(** ** The web client *)

(** A property value of the objects the client builds. *)
Inductive js_value :=
| JString (s : string)
| JBool (b : bool).

(** [value || fallback] for a form field: a string, or undefined when the
    field was never set; the empty string and undefined are falsy. *)
Definition js_or (value : option string) (fallback : string) : string :=
  match value with
  | Some (String c s) => String c s
  | Some EmptyString | None => fallback
  end.

(** The [config] that [handleSubmit] of the dashboard builds from
    [formData] and submits with the request. *)
Definition handleSubmit_config (formData : gmap string string)
  : gmap string js_value :=
  let resource_type := formData !! "resource_type" in
  if bool_decide (resource_type = Some "database") then
    <["engine" := JString (js_or (formData !! "engine") "postgres")]>
      (<["size" := JString (js_or (formData !! "size") "small")]> ∅)
  else if bool_decide (resource_type = Some "s3") then
    <["region" := JString (js_or (formData !! "region") "us-east-1")]>
      (<["public" := JBool (bool_decide (formData !! "public" = Some "true"))]> ∅)
  else if bool_decide (resource_type = Some "k8s_namespace") then
    <["cluster" := JString (js_or (formData !! "cluster") "default")]>
      (<["quota" := JString (js_or (formData !! "quota") "standard")]> ∅)
  else ∅.

(** The four cards of the admin page: [stats] of [Admin.jsx], computed
    from the requests the page has loaded. *)
Record Stats := {
  total : nat;
  pending : nat;
  approved : nat;
  provisioned : nat;
}.

Definition stats (requests : list ResourceRequest) : Stats :=
  {| total := length requests;
     pending :=
       length (List.filter (fun r => String.eqb (status r) "pending") requests);
     approved :=
       length (List.filter (fun r => String.eqb (status r) "approved") requests);
     provisioned :=
       length (List.filter (fun r => String.eqb (status r) "provisioned") requests) |}.

(** [api.js]: the browser's [localStorage] and the headers of a request,
    both as maps from strings to strings. *)

(** The request interceptor of [api]. *)
Definition request_interceptor (localStorage headers : gmap string string)
  : gmap string string :=
  match localStorage !! "token" with
  | Some (String c s) => <["Authorization" := "Bearer " +:+ String c s]> headers
  | Some EmptyString | None => headers
  end.

(** The error branch of the response interceptor of [api], on the local
    storage; [status] is [error.response?.status]. *)
Definition response_interceptor_error (status : option Z)
  (localStorage : gmap string string) : gmap string string :=
  if bool_decide (status = Some 401) then delete "user" (delete "token" localStorage)
  else localStorage.

(** What [authService.login] stores once the server has answered with
    [access_token]. *)
Definition login_stores (access_token : string) (localStorage : gmap string string)
  : gmap string string :=
  <["token" := access_token]> localStorage.

(** [authService.logout()] *)
Definition logout (localStorage : gmap string string) : gmap string string :=
  delete "user" (delete "token" localStorage).

(** ** The provisioning task module *)

Section TerraformTasks.

Import Str.

(** [BASE_DIR]: the project root, computed from [__file__] when the module
    is imported. *)
Variable BASE_DIR : string.

(** The module-level flag [DRY_RUN_MODE] (set to [True] in the listing). *)
Variable DRY_RUN_MODE : bool.

(** The [terraform] executable as a black box: what running it in a working
    directory with some arguments does, given the files it can read. What
    it keeps for itself in the workspace (plugins, the saved plan, its
    state file) is not tracked; it creates and removes none of the
    directories and files the tasks write. *)
Variable terraform : gmap string (gmap string string) -> string -> list string -> process.

(** [json.loads] of [terraform output -json] followed by the formatting of
    each [key: value] line; [None] when that raises. *)
Variable outputs_summary : string -> option string.

(** What [_run_terraform_workflow] returns when the outputs cannot be read
    or formatted (the lines after the [try] are elided in the listing). *)
Variable after_output : outcome -> outcome.

(** The provider text [_write_provider_config] writes for a provider other
    than ["aws"] (those branches are elided in the listing). *)
Variable other_provider_tf : string -> string.

(** The two provisioners whose bodies the listing does not show. They run
    on the worker's machine and cannot reach the database session. *)
Variable _provision_s3 : ResourceRequest -> M outcome.
Variable _provision_k8s_namespace : ResourceRequest -> M outcome.

Definition TERRAFORM_MODULES_PATH : string :=
  path_join (path_join BASE_DIR "terraform") "modules".

Definition TERRAFORM_WORKSPACES_PATH : string :=
  path_join (path_join BASE_DIR "terraform") "workspaces".

(** *** Helpers *)

(** [string.ascii_letters + string.digits] *)
Definition alphabet : string :=
  "abcdefghijklmnopqrstuvwxyzABCDEFGHIJKLMNOPQRSTUVWXYZ0123456789".

(** [secrets.choice(seq)] on the [n]-th value the system's generator yields. *)
Definition choice (seq : string) (n : nat) : ascii :=
  match String.get (n mod String.length seq) seq with
  | Some c => c
  | None => "000"%char
  end.

Fixpoint password_chars (length : nat) (rand : nat -> nat) (pos : nat) : string :=
  match length with
  | O => EmptyString
  | S k => String (choice alphabet (rand pos)) (password_chars k rand (S pos))
  end.

(** [_generate_password(length=16)] *)
Definition _generate_password (length : nat) (h : host) : string * host :=
  (password_chars length (entropy h) (draws h), with_draws (draws h + length) h).

(** The directory of a request: [os.path.join(TERRAFORM_WORKSPACES_PATH,
    f"request-{request_id}")]. *)
Definition workspace_path (request_id : Z) : string :=
  path_join TERRAFORM_WORKSPACES_PATH ("request-" +:+ str request_id).

Definition _create_workspace (request_id : Z) (resource_type : string) : M string :=
  let workspace_dir := workspace_path request_id in
  makedirs workspace_dir ;;;
  ret workspace_dir.

Definition provider_tf_aws : string :=
  nl +:+ join nl [
    "terraform {";
    "  required_providers {";
    "    aws = {";
    "      source  = " +:+ dq +:+ "hashicorp/aws" +:+ dq;
    "      version = " +:+ dq +:+ "~> 5.0" +:+ dq;
    "    }";
    "  }";
    "}";
    "";
    "provider " +:+ dq +:+ "aws" +:+ dq +:+ " {";
    "  region = var.aws_region";
    "}";
    "";
    "variable " +:+ dq +:+ "aws_region" +:+ dq +:+ " {";
    "  type    = string";
    "  default = " +:+ dq +:+ "us-east-1" +:+ dq;
    "}"
  ] +:+ nl.

(** [_write_provider_config(workspace_dir, provider)]. The listing shows
    the text for ["aws"]; the file it goes to is the [provider.tf] of the
    walkthrough's workspace contents. *)
Definition _write_provider_config (workspace_dir provider : string) : M unit :=
  let provider_tf :=
    if String.eqb provider "aws" then provider_tf_aws else other_provider_tf provider in
  write_file workspace_dir "provider.tf" provider_tf.

(** *** Running the tool *)

Definition _run_terraform (workspace_dir : string) (command : list string)
  (h : host) : outcome * host :=
  let h := log INFO ("Running: terraform " +:+ join " " command) h in
  let h := record_call workspace_dir command h in
  match terraform (fs h) workspace_dir command with
  | Exited returncode stdout stderr =>
      if returncode =? 0 then
        (Success stdout, log INFO "Terraform command succeeded" h)
      else
        (Failure (or_else stderr stdout),
         log ERROR ("Terraform command failed: " +:+ stderr) h)
  | TimeoutExpired =>
      (Failure "Terraform command timed out after 10 minutes", h)
  | FileNotFoundError =>
      (Failure "Terraform CLI not found. Please install Terraform.", h)
  end.

Definition dry_run_output (workspace_dir plan_output : string) : string :=
  "[DRY RUN] Plan completed successfully." +:+ nl +:+
  "Workspace: " +:+ workspace_dir +:+ nl +:+ nl +:+
  "Plan output:" +:+ nl +:+ take 2000 plan_output.

Definition _run_terraform_workflow (workspace_dir : string) (h : host) : outcome * host :=
  let h := log INFO ("Running Terraform in " +:+ workspace_dir +:+ " (DRY_RUN="
                     +:+ (if DRY_RUN_MODE then "True" else "False") +:+ ")") h in
  let '(init_result, h) := _run_terraform workspace_dir ["init"; "-no-color"] h in
  match init_result with
  | Failure error => (Failure ("Terraform init failed:" +:+ nl +:+ error), h)
  | Success _ =>
  let '(plan_result, h) :=
    _run_terraform workspace_dir ["plan"; "-no-color"; "-out=tfplan"] h in
  match plan_result with
  | Failure error => (Failure ("Terraform plan failed:" +:+ nl +:+ error), h)
  | Success plan_output =>
  if DRY_RUN_MODE then
    (Success (dry_run_output workspace_dir plan_output),
     log INFO "DRY RUN MODE: Skipping terraform apply" h)
  else
  let '(apply_result, h) :=
    _run_terraform workspace_dir ["apply"; "-no-color"; "-auto-approve"; "tfplan"] h in
  match apply_result with
  | Failure error => (Failure ("Terraform apply failed:" +:+ nl +:+ error), h)
  | Success _ =>
  let '(output_result, h) := _run_terraform workspace_dir ["output"; "-json"] h in
  match output_result with
  | Success output =>
      match outputs_summary output with
      | Some output_str => (Success output_str, h)
      | None => (after_output output_result, h)
      end
  | Failure _ => (after_output output_result, h)
  end end end end.

(** The captured standard output of a process that exited with code 0. *)
Definition stdout_if_ok (p : process) : option string :=
  match p with
  | Exited returncode stdout _ => if returncode =? 0 then Some stdout else None
  | _ => None
  end.

(** The error [_run_terraform] reports for a process that did not exit
    with code 0. *)
Definition failure_text (p : process) : string :=
  match p with
  | Exited _ stdout stderr => or_else stderr stdout
  | TimeoutExpired => "Terraform command timed out after 10 minutes"
  | FileNotFoundError => "Terraform CLI not found. Please install Terraform."
  end.

Definition init_command : list string := ["init"; "-no-color"].
Definition plan_command : list string := ["plan"; "-no-color"; "-out=tfplan"].
Definition apply_command : list string := ["apply"; "-no-color"; "-auto-approve"; "tfplan"].
Definition destroy_command : list string := ["destroy"; "-no-color"; "-auto-approve"].

(** *** The database provisioner *)

Definition size_mapping : gmap string string :=
  <["small" := "db.t3.micro"]> (<["medium" := "db.t3.small"]>
  (<["large" := "db.t3.medium"]> (<["xlarge" := "db.t3.large"]> ∅))).

(** Modelled from the spec: the listing elides how the size is looked up
    (section 4.4: an unrecognized tier falls back to the documented default
    tier, the micro class). *)
Definition instance_class_of (size : string) : string :=
  default "db.t3.micro" (size_mapping !! size).

(** Modelled from the spec: the listing elides the remaining lines of
    [terraform.tfvars] (section 4.4 and section 8: the variable file holds
    the mapped instance class and is the one place the generated secret is
    written to). *)
Definition tfvars_elided (instance_class password : string) : string :=
  "instance_class = " +:+ dq +:+ instance_class +:+ dq +:+ nl +:+
  "password       = " +:+ dq +:+ password +:+ dq.

(** [main_tf], with the module arguments the listing shows (it elides the
    others). *)
Definition main_tf : string :=
  nl +:+ join nl [
    "module " +:+ dq +:+ "database" +:+ dq +:+ " {";
    "  source = " +:+ dq +:+ TERRAFORM_MODULES_PATH +:+ "/database" +:+ dq;
    "";
    "  name             = var.name";
    "  engine           = var.engine";
    "}"
  ] +:+ nl.

Definition tfvars (request_name engine instance_class password : string) : string :=
  nl +:+ join nl [
    "name           = " +:+ dq +:+ request_name +:+ dq;
    "engine         = " +:+ dq +:+ engine +:+ dq;
    tfvars_elided instance_class password
  ] +:+ nl.

Definition _provision_database (request : ResourceRequest) : M outcome :=
  let config := default ∅ (config request) in
  workspace_dir <- _create_workspace (id request) "database" ;;
  _write_provider_config workspace_dir "aws" ;;;
  let engine := default "postgres" (config !! "engine") in
  let size := default "small" (config !! "size") in
  let instance_class := instance_class_of size in
  password <- lift (_generate_password 16) ;;
  write_file workspace_dir "main.tf" main_tf ;;;
  write_file workspace_dir "terraform.tfvars"
    (tfvars (name request) engine instance_class password) ;;;
  lift (_run_terraform_workflow workspace_dir).

(** *** The router *)

Definition _provision_by_type (request : ResourceRequest) : M outcome :=
  let resource_type := resource_type request in
  if String.eqb resource_type "database" then _provision_database request
  else if String.eqb resource_type "s3" then _provision_s3 request
  else if String.eqb resource_type "k8s_namespace" then _provision_k8s_namespace request
  else ret (Failure ("Unknown resource type: " +:+ resource_type)).

(** *** The main task *)

Definition provisioned_change (request : ResourceRequest) (result : outcome)
  : ResourceRequest -> ResourceRequest :=
  match result with
  | Success output => fun row =>
      set_admin_notes (notes_or_empty request +:+ nl +:+ nl
                       +:+ "Provisioned successfully:" +:+ nl +:+ output)
        (set_status "provisioned" row)
  | Failure error => fun row =>
      set_admin_notes (notes_or_empty request +:+ nl +:+ nl
                       +:+ "Provisioning failed:" +:+ nl +:+ error)
        (set_status "failed" row)
  end.

Definition error_change (request : ResourceRequest) (e : string)
  : ResourceRequest -> ResourceRequest :=
  fun row =>
    set_admin_notes (notes_or_empty request +:+ nl +:+ nl
                     +:+ "Provisioning error: " +:+ e)
      (set_status "failed" row).

(** The [except Exception as e] clause of [provision_resource]. *)
Definition on_exception (retries : nat) (request_id : Z) (e : string)
  (w : world) : task_result * world :=
  let w := wlog ERROR ("Error provisioning request " +:+ str request_id
                       +:+ ": " +:+ e) w in
  let w :=
    match query request_id w with
    | Some request => snd (commit request_id (error_change request e) w)
    | None => w
    end in
  (self_retry retries e 60, w).

(** [provision_resource(self, request_id)], in the run whose
    [self.request.retries] is [retries]. The listing elides the lines
    between the two assignments of the final status and the [except]
    clause; they are modelled as the commit of that status, which the
    walkthrough describes ("Worker updates database"), and the return.
    [finally: db.close()] releases the session and changes nothing that
    is modelled. *)
Definition provision_resource (retries : nat) (request_id : Z) (w : world)
  : task_result * world :=
  match query request_id w with
  | None =>
      (Returned "error" "Request not found",
       wlog ERROR ("Request " +:+ str request_id +:+ " not found") w)
  | Some request =>
  if negb (String.eqb (status request) "approved") then
    (Returned "skipped" "Request not approved",
     wlog WARNING ("Request " +:+ str request_id +:+ " is not approved, skipping") w)
  else
  match commit request_id (set_status "provisioning") w with
  | (Raise e, w) => on_exception retries request_id e w
  | (Ok _, w) =>
  let request := set_status "provisioning" request in
  match _provision_by_type request (machine w) with
  | (Raise e, h) => on_exception retries request_id e (with_machine h w)
  | (Ok result, h) =>
  match commit request_id (provisioned_change request result) (with_machine h w) with
  | (Raise e, w) => on_exception retries request_id e w
  | (Ok _, w) => (Completed (if success result then "provisioned" else "failed"), w)
  end end end end.

(** The queue's side of [self.retry]: a task whose run ends in a scheduled
    retry is run again, as the next retry, after the countdown. *)
Fixpoint deliver (fuel retries : nat) (request_id : Z) (w : world)
  : task_result * world :=
  match provision_resource retries request_id w with
  | (Retry e countdown, w') =>
      match fuel with
      | O => (Retry e countdown, w')
      | S fuel' => deliver fuel' (S retries) request_id w'
      end
  | settled => settled
  end.

Definition run_task (request_id : Z) (w : world) : task_result * world :=
  deliver max_retries 0 request_id w.

(** *** The main task, one store operation at a time

    The same task cut at its store operations, for runs of several workers
    on one store: the read, the write of ["provisioning"], the provisioner,
    the write of the final status. *)

Definition settle (rw : task_result * world) : stage * world :=
  (Done (fst rw), snd rw).

Definition step (retries : nat) (request_id : Z) (s : stage) (w : world)
  : stage * world :=
  match s with
  | Start =>
      match query request_id w with
      | None =>
          (Done (Returned "error" "Request not found"),
           wlog ERROR ("Request " +:+ str request_id +:+ " not found") w)
      | Some request =>
          if negb (String.eqb (status request) "approved") then
            (Done (Returned "skipped" "Request not approved"),
             wlog WARNING ("Request " +:+ str request_id
                           +:+ " is not approved, skipping") w)
          else (Loaded request, w)
      end
  | Loaded request =>
      match commit request_id (set_status "provisioning") w with
      | (Raise e, w) => settle (on_exception retries request_id e w)
      | (Ok _, w) => (Claimed (set_status "provisioning" request), w)
      end
  | Claimed request =>
      match _provision_by_type request (machine w) with
      | (Raise e, h) => settle (on_exception retries request_id e (with_machine h w))
      | (Ok result, h) => (Routed request result, with_machine h w)
      end
  | Routed request result =>
      match commit request_id (provisioned_change request result) w with
      | (Raise e, w) => settle (on_exception retries request_id e w)
      | (Ok _, w) =>
          (Done (Completed (if success result then "provisioned" else "failed")), w)
      end
  | Done r => (Done r, w)
  end.

Fixpoint run (fuel retries : nat) (request_id : Z) (s : stage) (w : world)
  : stage * world :=
  match fuel with
  | O => (s, w)
  | S fuel' =>
      let '(s', w') := step retries request_id s w in
      run fuel' retries request_id s' w'
  end.

(** Two runs of the task, [a] and [b], on one store and one machine; the
    schedule says whose operation comes next ([true]: [a]'s). *)
Definition advance (a : attempt) (w : world) : attempt * world :=
  let '(s, w') := step (attempt_retries a) (attempt_request a) (attempt_stage a) w in
  ({| attempt_retries := attempt_retries a; attempt_request := attempt_request a;
      attempt_stage := s |}, w').

Fixpoint interleave (schedule : list bool) (a b : attempt) (w : world)
  : attempt * attempt * world :=
  match schedule with
  | [] => (a, b, w)
  | true :: rest => let '(a', w') := advance a w in interleave rest a' b w'
  | false :: rest => let '(b', w') := advance b w in interleave rest a b' w'
  end.

(** *** The destroy task *)

(** Modelled from the spec: the listing elides what [destroy_resource] does
    when the destroy step fails (section 4.6: the status is unchanged, the
    captured error is appended to the notes, the workspace is kept). *)
Definition destroy_failed_change (request : ResourceRequest) (error : string)
  : ResourceRequest -> ResourceRequest :=
  set_admin_notes (notes_or_empty request +:+ nl +:+ nl
                   +:+ "Destroy failed:" +:+ nl +:+ error).

(** [destroy_resource(self, request_id)]. The listing shows the workspace
    check, the destroy step and the success branch; the lines that open
    the session and load [request] are elided and modelled after
    [provision_resource], and so is the commit that ends either branch. *)
Definition destroy_resource (request_id : Z) (w : world) : task_result * world :=
  match query request_id w with
  | None => (Returned "error" "Request not found", w)
  | Some request =>
  let workspace_dir := workspace_path request_id in
  if negb (path_exists workspace_dir (machine w)) then
    (Returned "error" "Workspace not found", w)
  else
  let '(destroy_result, h) :=
    _run_terraform workspace_dir ["destroy"; "-no-color"; "-auto-approve"] (machine w) in
  match destroy_result with
  | Success _ =>
      let h := rmtree workspace_dir h in
      match commit request_id (set_status "destroyed") (with_machine h w) with
      | (Ok _, w) => (Completed "destroyed", w)
      | (Raise e, w) => (Raised e, w)
      end
  | Failure error =>
      match commit request_id (destroy_failed_change request error) (with_machine h w) with
      | (Ok _, w) => (Completed (status request), w)
      | (Raise e, w) => (Raised e, w)
      end
  end end.


(** [row] is [request] later on: the same request, its notes grown at the
    end, its status the old one or one the task writes. *)
Definition carries_on (request row : ResourceRequest) : Prop :=
  id row = id request /\ name row = name request /\
  resource_type row = resource_type request /\ config row = config request /\
  user_id row = user_id request /\ team_id row = team_id request /\
  String.prefix (notes_or_empty request) (notes_or_empty row) = true /\
  (status row = status request \/ status row = "provisioning" \/
   status row = "provisioned" \/ status row = "failed").


(** ** Facts about strings and paths *)

Lemma append_cons (x : ascii) (a b : string) : String x a +:+ b = String x (a +:+ b).
Proof. reflexivity. Qed.

Lemma append_nil_l (a : string) : "" +:+ a = a.
Proof. reflexivity. Qed.

Lemma append_assoc (a b c : string) : (a +:+ b) +:+ c = a +:+ (b +:+ c).
Proof.
  induction a as [|x a IH]; [reflexivity|].
  rewrite !append_cons. f_equal. exact IH.
Qed.

Lemma append_nil_r (a : string) : a +:+ "" = a.
Proof.
  induction a as [|x a IH]; [reflexivity|].
  rewrite append_cons. f_equal. exact IH.
Qed.

Lemma prefix_refl (a : string) : String.prefix a a = true.
Proof.
  induction a as [|x a IH]; simpl; [reflexivity|].
  destruct (ascii_dec x x); [assumption | congruence].
Qed.

Lemma prefix_append (a b : string) : String.prefix a (a +:+ b) = true.
Proof.
  induction a as [|x a IH].
  - now destruct b.
  - rewrite append_cons. simpl.
    destruct (ascii_dec x x); [assumption | congruence].
Qed.

Lemma prefix_contains (a b : string) : String.prefix a b = true -> contains a b = true.
Proof. intros H. destruct b; simpl in *; now rewrite H. Qed.

Lemma contains_cons (n : string) (x : ascii) (h : string) :
  contains n (String x h) = if String.prefix n (String x h) then true else contains n h.
Proof. reflexivity. Qed.

Lemma contains_append_l (n a b : string) : contains n b = true -> contains n (a +:+ b) = true.
Proof.
  intros H. induction a as [|x a IH]; [assumption|].
  rewrite append_cons, contains_cons.
  destruct (String.prefix n (String x (a +:+ b))); [reflexivity | assumption].
Qed.

Lemma lower_append (a b : string) : lower (a +:+ b) = lower a +:+ lower b.
Proof.
  induction a as [|x a IH]; [reflexivity|].
  rewrite append_cons. simpl. rewrite append_cons. f_equal. exact IH.
Qed.

Lemma length_append (a b : string) :
  String.length (a +:+ b) = (String.length a + String.length b)%nat.
Proof.
  induction a as [|x a IH]; [reflexivity|].
  rewrite append_cons. simpl. f_equal. exact IH.
Qed.

(** Decimal printing loses nothing: it has a left inverse. *)
Lemma to_int_proper (z : Z) :
  Z.to_int z <> Decimal.Pos Decimal.Nil /\ Z.to_int z <> Decimal.Neg Decimal.Nil.
Proof.
  destruct z as [|p|p]; simpl; split; try discriminate;
    intros [= H]; now apply (DecimalPos.Unsigned.to_uint_nonnil p).
Qed.

Lemma str_inj (a b : Z) : str a = str b -> a = b.
Proof.
  unfold str. intros H.
  destruct (to_int_proper a) as [Ha1 Ha2], (to_int_proper b) as [Hb1 Hb2].
  pose proof (NilZero.isi _ Ha1 Ha2) as Ia.
  pose proof (NilZero.isi _ Hb1 Hb2) as Ib.
  rewrite H in Ia. rewrite Ia in Ib. injection Ib as Hab.
  rewrite <- (DecimalZ.of_to a), <- (DecimalZ.of_to b). now rewrite Hab.
Qed.

Lemma path_join_prefix (a b : string) :
  starts_with_slash b = false -> String.prefix a (path_join a b) = true.
Proof.
  intros Hb. unfold path_join. rewrite Hb.
  destruct a as [|x a]; [now destruct b|].
  destruct (ends_with_slash (String x a)); apply prefix_append.
Qed.

Lemma path_join_inj (a b c : string) :
  starts_with_slash b = false -> starts_with_slash c = false ->
  path_join a b = path_join a c -> b = c.
Proof.
  intros Hb Hc. unfold path_join. rewrite Hb, Hc.
  destruct a as [|x a]; [trivial|].
  destruct (ends_with_slash (String x a)); intros H.
  - now apply (inj (String.app (String x a))) in H.
  - apply (inj (String.app (String x a))) in H.
    now apply (inj (String.app "/")) in H.
Qed.

Lemma eqb_false (a b : string) : a <> b -> String.eqb a b = false.
Proof. intros H. now apply String.eqb_neq. Qed.

Lemma workspace_component (request_id : Z) :
  starts_with_slash ("request-" +:+ str request_id) = false.
Proof. reflexivity. Qed.

Lemma workspace_path_inj (a b : Z) : workspace_path a = workspace_path b -> a = b.
Proof.
  unfold workspace_path. intros H.
  apply path_join_inj in H; try apply workspace_component.
  apply (inj (String.app "request-")) in H. now apply str_inj.
Qed.

(** ** The workspace manager *)

Lemma makedirs_fresh (path : string) (h : host) :
  io_faults h = [] -> fs h !! path = None ->
  makedirs path h = (Ok tt, with_fs (<[path := ∅]> (fs h)) h).
Proof. intros Hio Hfs. unfold makedirs, next_io_fault. now rewrite Hio, Hfs. Qed.

Lemma makedirs_existing (path : string) (h : host) (files : gmap string string) :
  io_faults h = [] -> fs h !! path = Some files -> makedirs path h = (Ok tt, h).
Proof. intros Hio Hfs. unfold makedirs, next_io_fault. now rewrite Hio, Hfs. Qed.

Lemma create_workspace_ok (request_id : Z) (resource_type : string) (h : host) :
  io_faults h = [] ->
  exists h', _create_workspace request_id resource_type h = (Ok (workspace_path request_id), h')
    /\ io_faults h' = [] /\ calls h' = calls h /\ logs h' = logs h
    /\ is_Some (fs h' !! workspace_path request_id)
    /\ (is_Some (fs h !! workspace_path request_id) -> h' = h).
Proof.
  intros Hio. unfold _create_workspace, bind, ret.
  destruct (fs h !! workspace_path request_id) as [files|] eqn:Hfs.
  - rewrite (makedirs_existing _ _ files Hio Hfs). exists h.
    rewrite Hfs. repeat split; eauto.
  - rewrite (makedirs_fresh _ _ Hio Hfs). eexists. split; [reflexivity|].
    simpl. rewrite lookup_insert_eq. repeat split; eauto.
    intros [x Hx]. discriminate.
Qed.

(** C10. [_create_workspace] is deterministic and idempotent: as long as
    the file system raises no error, calling it twice for a request id
    (whatever resource type is passed) returns the same path both times,
    the second call changes nothing, the path is
    [TERRAFORM_WORKSPACES_PATH/request-<id>] and so lies under the fixed
    workspaces root, and two different request ids never get the same
    path. *)
Theorem create_workspace_idempotent_injective :
  forall (request_id : Z) (type1 type2 : string) (h : host),
    io_faults h = [] ->
    exists h1,
      _create_workspace request_id type1 h = (Ok (workspace_path request_id), h1) /\
      _create_workspace request_id type2 h1 = (Ok (workspace_path request_id), h1) /\
      path_exists (workspace_path request_id) h1 = true /\
      workspace_path request_id
        = path_join TERRAFORM_WORKSPACES_PATH ("request-" +:+ str request_id) /\
      String.prefix TERRAFORM_WORKSPACES_PATH (workspace_path request_id) = true /\
      (forall other : Z,
          other <> request_id -> workspace_path other <> workspace_path request_id).
Proof.
  intros request_id type1 type2 h Hio.
  destruct (create_workspace_ok request_id type1 h Hio)
    as (h1 & E1 & Hio1 & _ & _ & Hdir & _).
  destruct (create_workspace_ok request_id type2 h1 Hio1)
    as (h2 & E2 & _ & _ & _ & _ & Hsame).
  rewrite (Hsame Hdir) in E2.
  exists h1. repeat split; try assumption.
  - unfold path_exists. destruct Hdir as [files ->]. reflexivity.
  - apply path_join_prefix, workspace_component.
  - intros other Hne Heq. apply Hne. now apply workspace_path_inj.
Qed.

(** ** The router *)

Lemma route_unknown (request : ResourceRequest) (h : host) :
  resource_type request <> "database" ->
  resource_type request <> "s3" ->
  resource_type request <> "k8s_namespace" ->
  _provision_by_type request h
  = (Ok (Failure ("Unknown resource type: " +:+ resource_type request)), h).
Proof.
  intros H1 H2 H3. unfold _provision_by_type.
  now rewrite (eqb_false _ _ H1), (eqb_false _ _ H2), (eqb_false _ _ H3).
Qed.

(** C5, as amended. The resource types the router recognises are the
    strings ["database"], ["s3"] and ["k8s_namespace"]: a request of one of
    these types is handed to the provisioner of that type, and the router's
    own unknown-type answer is not produced. The spec's names
    ["object_storage"] and ["namespace"] are not among them and get the
    unknown-type answer. *)
Theorem router_dispatches_known_types :
  forall request : ResourceRequest,
    (resource_type request = "database" ->
       _provision_by_type request = _provision_database request) /\
    (resource_type request = "s3" ->
       _provision_by_type request = _provision_s3 request) /\
    (resource_type request = "k8s_namespace" ->
       _provision_by_type request = _provision_k8s_namespace request) /\
    (resource_type request = "object_storage" \/ resource_type request = "namespace" ->
       forall h, _provision_by_type request h
                 = (Ok (Failure ("Unknown resource type: " +:+ resource_type request)), h)).
Proof.
  intros request. unfold _provision_by_type.
  split; [|split; [|split]].
  - intros ->. reflexivity.
  - intros ->. reflexivity.
  - intros ->. reflexivity.
  - intros [-> | ->] h; reflexivity.
Qed.

(** C6. A request whose resource type is none of the recognised ones gets
    an outcome with [success = False] whose error is
    ["Unknown resource type: <type>"] (it mentions "unknown resource type",
    up to the capital letter), and the machine is left exactly as it was:
    no directory is created, no file written, no subcommand of the tool
    invoked, nothing logged. *)
Theorem unknown_type_fails_without_effects :
  forall (request : ResourceRequest) (h : host),
    resource_type request <> "database" ->
    resource_type request <> "s3" ->
    resource_type request <> "k8s_namespace" ->
    exists error,
      _provision_by_type request h = (Ok (Failure error), h) /\
      success (Failure error) = false /\
      error = "Unknown resource type: " +:+ resource_type request /\
      contains "unknown resource type" (lower error) = true.
Proof.
  intros request h H1 H2 H3.
  exists ("Unknown resource type: " +:+ resource_type request).
  split; [now apply route_unknown|].
  split; [reflexivity|]. split; [reflexivity|].
  apply prefix_contains. rewrite lower_append.
  change (lower "Unknown resource type: ") with ("unknown resource type" +:+ ": ").
  rewrite append_assoc. apply prefix_append.
Qed.

(** ** The main task *)

Lemma commit_healthy (request_id : Z) (change : ResourceRequest -> ResourceRequest)
  (w : world) :
  db_faults w = [] ->
  commit request_id change w
  = (Ok tt, {| rows := alter change request_id (rows w); db_faults := [];
               machine := machine w |}).
Proof. intros H. unfold commit. now rewrite H. Qed.

Lemma commit_rejected (request_id : Z) (change : ResourceRequest -> ResourceRequest)
  (w : world) (e : string) (rest : list (option string)) :
  db_faults w = Some e :: rest ->
  commit request_id change w
  = (Raise e, {| rows := rows w; db_faults := rest; machine := machine w |}).
Proof. intros H. unfold commit. now rewrite H. Qed.

Lemma on_exception_healthy (retries : nat) (request_id : Z) (e : string)
  (w : world) (row : ResourceRequest) :
  db_faults w = [] -> query request_id w = Some row ->
  on_exception retries request_id e w
  = (self_retry retries e 60,
     {| rows := alter (error_change row e) request_id (rows w); db_faults := [];
        machine := log ERROR ("Error provisioning request " +:+ str request_id
                              +:+ ": " +:+ e) (machine w) |}).
Proof.
  intros Hdb Hq. unfold on_exception.
  change (query request_id (wlog ERROR _ w)) with (query request_id w).
  rewrite Hq. rewrite commit_healthy by exact Hdb. reflexivity.
Qed.

Lemma approved_guard (request : ResourceRequest) :
  status request = "approved" -> negb (String.eqb (status request) "approved") = false.
Proof. intros ->. reflexivity. Qed.

Lemma not_approved_guard (request : ResourceRequest) :
  status request <> "approved" -> negb (String.eqb (status request) "approved") = true.
Proof. intros H. now rewrite (eqb_false _ _ H). Qed.

(** C3. For a request whose status is not ["approved"] (so also for one
    that is already ["provisioned"]), [provision_resource] returns the
    skipped outcome and only logs a warning: the stored rows, hence the
    request's status and notes, are unchanged, and so are the file system
    (no workspace is created or changed) and the list of tool invocations. *)
Theorem not_approved_is_skipped :
  forall (retries : nat) (request_id : Z) (w : world) (request : ResourceRequest),
    query request_id w = Some request ->
    status request <> "approved" ->
    exists w',
      provision_resource retries request_id w
      = (Returned "skipped" "Request not approved", w') /\
      rows w' = rows w /\
      query request_id w' = Some request /\
      db_faults w' = db_faults w /\
      fs (machine w') = fs (machine w) /\
      calls (machine w') = calls (machine w) /\
      draws (machine w') = draws (machine w) /\
      logs (machine w')
      = logs (machine w)
        ++ [(WARNING, "Request " +:+ str request_id +:+ " is not approved, skipping")].
Proof.
  intros retries request_id w request Hq Hst.
  unfold provision_resource. rewrite Hq, (not_approved_guard _ Hst).
  eexists. split; [reflexivity|]. simpl. repeat split; try reflexivity. exact Hq.
Qed.


(** ** The execution engine *)

Lemma run_terraform_frame (workspace_dir : string) (command : list string) (h : host) :
  exists (result : outcome) (h' : host),
    _run_terraform workspace_dir command h = (result, h') /\
    fs h' = fs h /\
    calls h' = calls h ++ [(workspace_dir, command)] /\
    io_faults h' = io_faults h /\ draws h' = draws h /\ entropy h' = entropy h /\
    logs h' <> [] /\
    match stdout_if_ok (terraform (fs h) workspace_dir command) with
    | Some stdout => result = Success stdout
    | None => result = Failure (failure_text (terraform (fs h) workspace_dir command))
    end.
Proof.
  unfold _run_terraform. simpl.
  destruct (terraform (fs h) workspace_dir command) as [rc out err| |]; simpl.
  - destruct (rc =? 0); eexists _, _; (split; [reflexivity|]); simpl;
      repeat split; eauto; intros H; now apply app_eq_nil in H as [_ [=]].
  - eexists _, _; (split; [reflexivity|]); simpl; repeat split; eauto;
      intros H; now apply app_eq_nil in H as [_ [=]].
  - eexists _, _; (split; [reflexivity|]); simpl; repeat split; eauto;
      intros H; now apply app_eq_nil in H as [_ [=]].
Qed.

(** C2, as amended. With dry-run enabled the workflow never runs [apply]:
    the only invocations it adds are [init] and, if [init] exited with 0,
    [plan]. If both exited with 0 it returns success, and its output is a
    fixed header naming the workspace followed by the first 2000
    characters of the captured plan text (not the whole text); if [init]
    or [plan] failed it returns that step's failure. The file system is
    not touched by the workflow itself. *)
Theorem dry_run_stops_after_plan :
  forall (workspace_dir : string) (h : host),
    DRY_RUN_MODE = true ->
    exists (result : outcome) (h' : host) (added : list (string * list string)),
      _run_terraform_workflow workspace_dir h = (result, h') /\
      fs h' = fs h /\
      calls h' = calls h ++ added /\
      Forall (fun call => hd "" (snd call) <> "apply") added /\
      match stdout_if_ok (terraform (fs h) workspace_dir init_command) with
      | None =>
          added = [(workspace_dir, init_command)] /\
          exists error, result = Failure ("Terraform init failed:" +:+ nl +:+ error)
      | Some _ =>
          added = [(workspace_dir, init_command); (workspace_dir, plan_command)] /\
          match stdout_if_ok (terraform (fs h) workspace_dir plan_command) with
          | None => exists error, result = Failure ("Terraform plan failed:" +:+ nl +:+ error)
          | Some plan_output =>
              result = Success ("[DRY RUN] Plan completed successfully." +:+ nl +:+
                                "Workspace: " +:+ workspace_dir +:+ nl +:+ nl +:+
                                "Plan output:" +:+ nl +:+ substring 0 2000 plan_output)
          end
      end.
Proof.
  intros workspace_dir h Hdry. unfold _run_terraform_workflow. rewrite Hdry.
  set (h0 := log INFO _ h).
  destruct (run_terraform_frame workspace_dir init_command h0)
    as (r1 & h1 & E1 & Hfs1 & Hc1 & _ & _ & _ & _ & Hr1).
  fold init_command plan_command. rewrite E1.
  change (fs h0) with (fs h) in *. change (calls h0) with (calls h) in *.
  destruct (stdout_if_ok (terraform (fs h) workspace_dir init_command)) as [out1|].
  - subst r1.
    destruct (run_terraform_frame workspace_dir plan_command h1)
      as (r2 & h2 & E2 & Hfs2 & Hc2 & _ & _ & _ & _ & Hr2).
    rewrite E2. rewrite Hfs1 in Hr2.
    assert (Hcalls : calls h2
                     = calls h ++ [(workspace_dir, init_command); (workspace_dir, plan_command)]).
    { rewrite Hc2, Hc1, <- app_assoc. reflexivity. }
    assert (Hno : Forall (fun call : string * list string => hd "" (snd call) <> "apply")
                    [(workspace_dir, init_command); (workspace_dir, plan_command)]).
    { repeat constructor; discriminate. }
    destruct (stdout_if_ok (terraform (fs h) workspace_dir plan_command)) as [out2|].
    + subst r2. eexists _, _, _. split; [reflexivity|]. simpl.
      split; [congruence|]. split; [exact Hcalls|]. split; [exact Hno|].
      split; reflexivity.
    + subst r2. eexists _, _, _. split; [reflexivity|].
      split; [congruence|]. split; [exact Hcalls|]. split; [exact Hno|].
      split; [reflexivity | now eexists].
  - subst r1. eexists _, _, _. split; [reflexivity|].
    split; [exact Hfs1|]. split; [exact Hc1|]. split.
    + repeat constructor; discriminate.
    + split; [reflexivity | now eexists].
Qed.

(** ** The destroy task *)


Lemma commit_frame (request_id : Z) (change : ResourceRequest -> ResourceRequest) (w : world) :
  machine (snd (commit request_id change w)) = machine w /\
  (snd (commit request_id change w) = w \/
   db_faults (snd (commit request_id change w)) = tl (db_faults w)) /\
  (rows (snd (commit request_id change w)) = rows w \/
   rows (snd (commit request_id change w)) = alter change request_id (rows w)).
Proof.
  unfold commit. destruct (db_faults w) as [|[e|] rest]; simpl; auto.
Qed.


(** ** The database provisioner *)

Lemma write_file_ok (dir file content : string) (h : host) (files : gmap string string) :
  io_faults h = [] -> fs h !! dir = Some files ->
  write_file dir file content h
  = (Ok tt, with_fs (<[dir := <[file := content]> files]> (fs h)) h).
Proof. intros Hio Hfs. unfold write_file, next_io_fault. now rewrite Hio, Hfs. Qed.


(** With a file system that raises no error the database provisioner
    gets to the workflow, having written the three files into the
    request's workspace and nothing into the log. *)
Lemma provision_database_prepares (request : ResourceRequest) (h : host) :
  io_faults h = [] ->
  exists (h1 : host) (files : gmap string string),
    _provision_database request h
    = lift (_run_terraform_workflow (workspace_path (id request))) h1 /\
    calls h1 = calls h /\ logs h1 = logs h /\ io_faults h1 = [] /\
    fs h1 !! workspace_path (id request) = Some files /\
    files !! "terraform.tfvars"
    = Some (tfvars (name request)
              (default "postgres" (default ∅ (config request) !! "engine"))
              (instance_class_of (default "small" (default ∅ (config request) !! "size")))
              (password_chars 16 (entropy h) (draws h))) /\
    files !! "main.tf" = Some main_tf /\
    files !! "provider.tf" = Some provider_tf_aws.
Proof.
  intros Hio. unfold _provision_database, bind.
  destruct (create_workspace_ok (id request) "database" h Hio)
    as (h0 & E0 & Hio0 & Hc0 & Hl0 & [files0 Hf0] & _).
  rewrite E0. unfold _write_provider_config. simpl String.eqb. cbv iota.
  rewrite (write_file_ok _ _ _ _ files0 Hio0 Hf0).
  unfold lift at 1, _generate_password. cbv beta iota zeta.
  set (ws := workspace_path (id request)).
  set (F1 := <[ws := <["provider.tf" := provider_tf_aws]> files0]> (fs h0)).
  set (h1 := with_draws _ (with_fs F1 h0)).
  assert (Hio1 : io_faults h1 = []) by exact Hio0.
  assert (Hf1 : fs h1 !! ws = Some (<["provider.tf" := provider_tf_aws]> files0)).
  { unfold h1, F1. simpl. apply lookup_insert_eq. }
  rewrite (write_file_ok _ _ _ _ _ Hio1 Hf1).
  set (files2 := <["main.tf" := main_tf]> (<["provider.tf" := provider_tf_aws]> files0)).
  set (h2 := with_fs (<[ws := files2]> (fs h1)) h1).
  assert (Hio2 : io_faults h2 = []) by exact Hio0.
  assert (Hf2 : fs h2 !! ws = Some files2).
  { unfold h2. simpl. apply lookup_insert_eq. }
  rewrite (write_file_ok _ _ _ _ _ Hio2 Hf2).
  assert (He : entropy h0 = entropy h /\ draws h0 = draws h).
  { unfold _create_workspace, bind, ret in E0.
    destruct (fs h !! workspace_path (id request)) as [fl|] eqn:Hfs.
    - rewrite (makedirs_existing _ _ fl Hio Hfs) in E0. now injection E0 as <-.
    - rewrite (makedirs_fresh _ _ Hio Hfs) in E0. now injection E0 as <-. }
  destruct He as [He Hd].
  eexists _, _. split; [reflexivity|].
  split; [exact Hc0|]. split; [exact Hl0|]. split; [exact Hio0|].
  split; [apply lookup_insert_eq|].
  split; [|split].
  - rewrite lookup_insert_eq. cbn [entropy draws with_fs]. rewrite He, Hd. reflexivity.
  - unfold files2. rewrite lookup_insert_ne by discriminate. apply lookup_insert_eq.
  - unfold files2. rewrite !lookup_insert_ne by discriminate. apply lookup_insert_eq.
Qed.



(** ** Failures and retries *)





Lemma on_exception_result (retries : nat) (request_id : Z) (e : string) (w : world) :
  fst (on_exception retries request_id e w) = self_retry retries e 60.
Proof. reflexivity. Qed.

(** A run asks for a retry only while retries are left. *)
Lemma retry_only_while_retries_left (retries : nat) (request_id : Z) (w : world)
  (e : string) (countdown : Z) :
  fst (provision_resource retries request_id w) = Retry e countdown ->
  (retries < max_retries)%nat /\ countdown = 60.
Proof.
  assert (Hretry : forall e', self_retry retries e' 60 = Retry e countdown ->
                              (retries < max_retries)%nat /\ countdown = 60).
  { intros e'. unfold self_retry.
    destruct (retries <? max_retries)%nat eqn:Hlt; [|discriminate].
    intros [= _ <-]. split; [now apply Nat.ltb_lt | reflexivity]. }
  unfold provision_resource.
  destruct (query request_id w) as [request|]; [|discriminate].
  destruct (negb _); [discriminate|].
  destruct (commit request_id (set_status "provisioning") w) as [[u|e1] w1];
    [|rewrite on_exception_result; apply Hretry].
  destruct (_provision_by_type _ (machine w1)) as [[result|e1] h];
    [|rewrite on_exception_result; apply Hretry].
  destruct (commit request_id _ (with_machine h w1)) as [[u'|e1] w2];
    [discriminate | rewrite on_exception_result; apply Hretry].
Qed.

(** The queue runs a task at most [1 + max_retries] times: [run_task]
    always ends with a settled result. *)
Lemma deliver_settles (fuel retries : nat) (request_id : Z) (w : world) :
  (max_retries <= retries + fuel)%nat ->
  forall e countdown, fst (deliver fuel retries request_id w) <> Retry e countdown.
Proof.
  revert retries w. induction fuel as [|fuel IH]; intros retries w Hle e countdown.
  - cbn [deliver]. intros H.
    assert (H' : fst (provision_resource retries request_id w) = Retry e countdown).
    { destruct (provision_resource retries request_id w) as [[| | |] w']; exact H. }
    apply retry_only_while_retries_left in H' as [Hlt _]. lia.
  - cbn [deliver].
    destruct (provision_resource retries request_id w) as [[st msg|st|e' c'|e'] w'];
      try discriminate.
    apply IH. lia.
Qed.

(** X19. However the runs go, [run_task] (the first run and the retries
    the queue delivers, [max_retries = 3] of them at most) never ends with
    a retry still pending: the task settles after at most four runs. *)
Lemma run_task_settles (request_id : Z) (w : world) (e : string) (countdown : Z) :
  fst (run_task request_id w) <> Retry e countdown.
Proof. unfold run_task. apply deliver_settles. lia. Qed.


(** X20. When the store accepts the claim and then rejects the run's two later
    commits, the handler's attempt to mark the request is lost as well:
    the run ends in [self.retry] and the stored status is still
    ["provisioning"]. *)
Lemma rejected_commits_leave_provisioning (retries : nat) (request_id : Z) (w : world)
  (request : ResourceRequest) (e1 e2 : string) (rest : list (option string)) :
  query request_id w = Some request -> status request = "approved" ->
  db_faults w = None :: Some e1 :: Some e2 :: rest ->
  exists e w',
    provision_resource retries request_id w = (self_retry retries e 60, w') /\
    query request_id w' = Some (set_status "provisioning" request).
Proof.
  intros Hq Hst Hdb.
  assert (Hhandler : forall e h rest',
             on_exception retries request_id e
               {| rows := alter (set_status "provisioning") request_id (rows w);
                  db_faults := Some e2 :: rest'; machine := h |}
             = (self_retry retries e 60,
                {| rows := alter (set_status "provisioning") request_id (rows w);
                   db_faults := rest';
                   machine := log ERROR ("Error provisioning request "
                                         +:+ str request_id +:+ ": " +:+ e) h |})).
  { intros e h rest'. unfold on_exception, query, wlog, with_machine.
    cbn [rows machine db_faults]. rewrite lookup_alter_eq.
    unfold query in Hq. rewrite Hq. reflexivity. }
  assert (Hq1 : forall d h,
             query request_id
               {| rows := alter (set_status "provisioning") request_id (rows w);
                  db_faults := d; machine := h |}
             = Some (set_status "provisioning" request)).
  { intros d h. unfold query. cbn [rows]. rewrite lookup_alter_eq.
    unfold query in Hq. now rewrite Hq. }
  unfold provision_resource. rewrite Hq, (approved_guard _ Hst).
  unfold commit at 1. rewrite Hdb. cbn [machine].
  destruct (_provision_by_type (set_status "provisioning" request) (machine w))
    as [[result|e] h].
  - unfold commit, with_machine. cbn [db_faults rows machine].
    rewrite Hhandler. eexists _, _. split; [reflexivity | apply Hq1].
  - unfold with_machine. cbn [db_faults rows machine].
    unfold on_exception, query, wlog, with_machine, commit.
    cbn [rows machine db_faults]. rewrite lookup_alter_eq.
    unfold query in Hq. rewrite Hq. cbn [fmap option_fmap option_map snd].
    eexists _, _. split; [reflexivity | apply Hq1].
Qed.


(** ** Several runs on one store *)

(** Run alone, the task cut at its store operations is the task. *)
Lemma run_alone (retries : nat) (request_id : Z) (w : world) :
  run 4 retries request_id Start w = settle (provision_resource retries request_id w).
Proof.
  unfold provision_resource, settle. cbn [run step].
  destruct (query request_id w) as [request|]; [|reflexivity].
  destruct (negb (String.eqb (status request) "approved")); [reflexivity|].
  cbn [run step].
  destruct (commit request_id (set_status "provisioning") w) as [[u|e] w1];
    [|cbn; now destruct (on_exception retries request_id e w1)].
  cbn [run step].
  destruct (_provision_by_type (set_status "provisioning" request) (machine w1))
    as [[result|e] h];
    [|cbn; now destruct (on_exception retries request_id e (with_machine h w1))].
  cbn [run step].
  destruct (commit request_id _ (with_machine h w1)) as [[u'|e] w2];
    [reflexivity | cbn; now destruct (on_exception retries request_id e w2)].
Qed.

Lemma commit_past_approval (request_id other : Z)
  (change : ResourceRequest -> ResourceRequest) (w : world) :
  (forall row, status (change row) <> "approved") ->
  past_approval request_id w ->
  past_approval request_id (snd (commit other change w)).
Proof.
  intros Hchange (row & Hq & Hst). unfold past_approval, query in *.
  assert (Halter : exists row', alter change other (rows w) !! request_id = Some row'
                                /\ status row' <> "approved").
  { destruct (decide (other = request_id)) as [->|Hne].
    - exists (change row). rewrite lookup_alter_eq, Hq. split; [reflexivity | apply Hchange].
    - exists row. rewrite lookup_alter_ne by exact Hne. now split. }
  unfold commit. destruct (db_faults w) as [|[e|] rest]; cbn [snd rows]; eauto.
Qed.

Lemma provisioned_change_status (request : ResourceRequest) (result : outcome)
  (row : ResourceRequest) :
  status (provisioned_change request result row) <> "approved".
Proof. destruct result; discriminate. Qed.

Lemma on_exception_past_approval (retries : nat) (request_id other : Z) (e : string)
  (w : world) :
  past_approval request_id w ->
  past_approval request_id (snd (on_exception retries other e w)).
Proof.
  intros H. unfold on_exception. cbn [snd].
  change (query other (wlog ERROR _ w)) with (query other w).
  destruct (query other w) as [request|].
  - apply commit_past_approval; [intros row; discriminate|].
    exact H.
  - exact H.
Qed.

Lemma step_past_approval (retries : nat) (request_id other : Z) (s : stage) (w : world) :
  past_approval request_id w ->
  past_approval request_id (snd (step retries other s w)).
Proof.
  intros H. destruct s as [|request|request|request result|r]; cbn [step].
  - destruct (query other w) as [request|]; [|exact H].
    destruct (negb _); exact H.
  - pose proof (commit_past_approval request_id other (set_status "provisioning") w
                  (fun _ => ltac:(discriminate)) H) as Hc.
    destruct (commit other (set_status "provisioning") w) as [[u|e] w1]; cbn [snd] in *.
    + exact Hc.
    + unfold settle. cbn [snd]. now apply on_exception_past_approval.
  - destruct (_provision_by_type request (machine w)) as [[result|e] h]; cbn [snd].
    + exact H.
    + unfold settle. cbn [snd]. apply on_exception_past_approval. exact H.
  - pose proof (commit_past_approval request_id other (provisioned_change request result) w
                  (provisioned_change_status request result) H) as Hc.
    destruct (commit other (provisioned_change request result) w) as [[u|e] w1];
      cbn [snd] in *.
    + exact Hc.
    + unfold settle. cbn [snd]. now apply on_exception_past_approval.
  - exact H.
Qed.

(** A reader that comes after the status has left ["approved"] is skipped. *)
Lemma late_reader_skipped (retries : nat) (request_id : Z) (w : world) :
  past_approval request_id w ->
  fst (step retries request_id Start w) = Done (Returned "skipped" "Request not approved").
Proof.
  intros (row & Hq & Hst). cbn [step]. rewrite Hq, (not_approved_guard _ Hst). reflexivity.
Qed.

(** The only skip the task knows is "Request not approved". *)
Lemma no_other_skip (retries : nat) (request_id : Z) (w : world) (message : string) :
  fst (provision_resource retries request_id w) = Returned "skipped" message ->
  message = "Request not approved".
Proof.
  assert (Hretry : forall e, self_retry retries e 60 <> Returned "skipped" message).
  { intros e. unfold self_retry. destruct (retries <? max_retries)%nat; discriminate. }
  unfold provision_resource.
  destruct (query request_id w) as [request|]; [|discriminate].
  destruct (negb _); [now intros [= <-]|].
  destruct (commit request_id (set_status "provisioning") w) as [[u|e1] w1];
    [|rewrite on_exception_result; intros H; now apply Hretry in H].
  destruct (_provision_by_type _ (machine w1)) as [[result|e1] h];
    [|rewrite on_exception_result; intros H; now apply Hretry in H].
  destruct (commit request_id _ (with_machine h w1)) as [[u'|e1] w2];
    [discriminate | rewrite on_exception_result; intros H; now apply Hretry in H].
Qed.

Lemma interleave_past_approval (schedule : list bool) (a b : attempt) (w : world) :
  past_approval (attempt_request b) w ->
  waiting_or_skipped (attempt_stage b) ->
  let '(a', b', w') := interleave schedule a b w in
  past_approval (attempt_request b) w' /\
  attempt_request b' = attempt_request b /\
  waiting_or_skipped (attempt_stage b') /\
  (attempt_stage b <> Start \/ In false schedule ->
   attempt_stage b' = Done (Returned "skipped" "Request not approved")).
Proof.
  revert a b w. induction schedule as [|turn rest IH]; intros a b w Hpast Hb.
  - cbn. repeat split; try assumption.
    intros [Hne | []]. destruct Hb as [Hb | Hb]; [contradiction | exact Hb].
  - destruct turn; cbn [interleave].
    + unfold advance.
      pose proof (step_past_approval (attempt_retries a) (attempt_request b)
                    (attempt_request a) (attempt_stage a) w Hpast) as Hpast'.
      destruct (step (attempt_retries a) (attempt_request a) (attempt_stage a) w)
        as [s' w'].
      cbn [snd] in Hpast'.
      specialize (IH {| attempt_retries := attempt_retries a;
                        attempt_request := attempt_request a;
                        attempt_stage := s' |} b w' Hpast' Hb).
      destruct (interleave rest _ b w') as [[a'' b''] w''].
      destruct IH as (H1 & H2 & H3 & H4).
      repeat split; try assumption.
      intros [Hne | [Hf | Hin]]; [auto | discriminate | auto].
    + unfold advance.
      pose proof (step_past_approval (attempt_retries b) (attempt_request b)
                    (attempt_request b) (attempt_stage b) w Hpast) as Hpast'.
      assert (Hs : fst (step (attempt_retries b) (attempt_request b) (attempt_stage b) w)
                   = Done (Returned "skipped" "Request not approved")).
      { destruct Hb as [-> | ->]; [now apply late_reader_skipped | reflexivity]. }
      destruct (step (attempt_retries b) (attempt_request b) (attempt_stage b) w)
        as [s' w'].
      cbn [fst snd] in *. subst s'.
      set (b1 := {| attempt_retries := attempt_retries b;
                    attempt_request := attempt_request b;
                    attempt_stage := Done (Returned "skipped" "Request not approved") |}).
      specialize (IH a b1 w' Hpast' (or_intror eq_refl)).
      destruct (interleave rest a b1 w') as [[a'' b''] w''].
      destruct IH as (H1 & H2 & H3 & H4).
      repeat split; try assumption.
      intros _. apply H4. left. discriminate.
Qed.

(** C1, as amended. The claim of a request is a read, a test and an
    unconditional write, not a compare-and-set. It excludes a second
    attempt only when that attempt reads after the first one's write: once
    an attempt has read the request as ["approved"] and the store has
    accepted its write of ["provisioning"], an attempt on the same request
    that has not yet read is, however the two are scheduled from there on,
    skipped with "Request not approved" as soon as it reads, and the
    status never is ["approved"] again. No run is ever skipped as
    "already in progress". (Two attempts that both read before either
    writes both go on.) *)
Theorem claim_excludes_later_readers :
  forall (retries_a retries_b : nat) (request_id : Z) (w : world)
         (request : ResourceRequest) (schedule : list bool),
    query request_id w = Some request ->
    status request = "approved" ->
    hd None (db_faults w) = None ->
    let a := {| attempt_retries := retries_a; attempt_request := request_id;
                attempt_stage := Start |} in
    let b := {| attempt_retries := retries_b; attempt_request := request_id;
                attempt_stage := Start |} in
    exists w1,
      interleave [true; true] a b w
      = ({| attempt_retries := retries_a; attempt_request := request_id;
            attempt_stage := Claimed (set_status "provisioning" request) |}, b, w1) /\
      query request_id w1 = Some (set_status "provisioning" request) /\
      let '(a', b', w') := interleave (true :: true :: schedule) a b w in
      (In false schedule ->
       attempt_stage b' = Done (Returned "skipped" "Request not approved")) /\
      (attempt_stage b' = Start \/
       attempt_stage b' = Done (Returned "skipped" "Request not approved")) /\
      (exists row, query request_id w' = Some row /\ status row <> "approved") /\
      forall retries any_id any_w,
        fst (provision_resource retries any_id any_w)
        <> Returned "skipped" "already in progress".
Proof.
  intros retries_a retries_b request_id w request schedule Hq Hst Hdb a b.
  assert (Hclaim : exists w1,
             commit request_id (set_status "provisioning") w = (Ok tt, w1) /\
             query request_id w1 = Some (set_status "provisioning" request)).
  { unfold commit, query in *.
    destruct (db_faults w) as [|[e|] rest]; [| discriminate |];
      (eexists; split; [reflexivity|]); cbn [rows];
      now rewrite lookup_alter_eq, Hq. }
  destruct Hclaim as (w1 & Hc & Hq1).
  assert (Hprefix : interleave [true; true] a b w
                    = ({| attempt_retries := retries_a; attempt_request := request_id;
                          attempt_stage := Claimed (set_status "provisioning" request) |},
                       b, w1)).
  { cbn [interleave]. unfold advance at 1, a.
    cbn [attempt_retries attempt_request attempt_stage step].
    rewrite Hq, (approved_guard _ Hst).
    unfold advance. cbn [attempt_retries attempt_request attempt_stage step].
    rewrite Hc. reflexivity. }
  exists w1. split; [exact Hprefix|]. split; [exact Hq1|].
  change (interleave (true :: true :: schedule) a b w)
    with (let '(a1, w0) := advance a w in
          let '(a2, w2) := advance a1 w0 in interleave schedule a2 b w2).
  cbn [interleave] in Hprefix.
  destruct (advance a w) as [a1 w0].
  destruct (advance a1 w0) as [a2 w2].
  injection Hprefix as -> ->.
  assert (Hpast : past_approval (attempt_request b) w1).
  { exists (set_status "provisioning" request). split; [exact Hq1 | discriminate]. }
  pose proof (interleave_past_approval schedule
                {| attempt_retries := retries_a; attempt_request := request_id;
                   attempt_stage := Claimed (set_status "provisioning" request) |}
                b w1 Hpast (or_introl eq_refl)) as Hinv.
  destruct (interleave schedule _ b w1) as [[a' b'] w'].
  destruct Hinv as (H1 & H2 & H3 & H4).
  split; [intros Hin; apply H4; now right|].
  split; [exact H3|]. split; [exact H1|].
  intros retries any_id any_w Hskip. now apply no_other_skip in Hskip.
Qed.

(** ** The generated secret *)






Lemma agree_refl (h : host) : agree h h.
Proof. repeat split. Qed.

















(** ** More about running the tool *)


Lemma workflow_frame (workspace_dir : string) (h : host) :
  fs (snd (_run_terraform_workflow workspace_dir h)) = fs h /\
  io_faults (snd (_run_terraform_workflow workspace_dir h)) = io_faults h.
Proof.
  unfold _run_terraform_workflow.
  set (h0 := log INFO _ h).
  destruct (run_terraform_frame workspace_dir ["init"; "-no-color"] h0)
    as (r1 & h1 & E1 & Hfs1 & _ & Hio1 & _).
  rewrite E1. destruct r1 as [o1|e1]; [|cbn [snd]; now rewrite Hfs1, Hio1].
  destruct (run_terraform_frame workspace_dir ["plan"; "-no-color"; "-out=tfplan"] h1)
    as (r2 & h2 & E2 & Hfs2 & _ & Hio2 & _).
  rewrite E2. destruct r2 as [o2|e2]; [|cbn [snd]; now rewrite Hfs2, Hio2, Hfs1, Hio1].
  destruct DRY_RUN_MODE; [cbn [snd fs io_faults log]; now rewrite Hfs2, Hio2, Hfs1, Hio1|].
  destruct (run_terraform_frame workspace_dir
              ["apply"; "-no-color"; "-auto-approve"; "tfplan"] h2)
    as (r3 & h3 & E3 & Hfs3 & _ & Hio3 & _).
  rewrite E3.
  destruct r3 as [o3|e3]; [|cbn [snd]; now rewrite Hfs3, Hio3, Hfs2, Hio2, Hfs1, Hio1].
  destruct (run_terraform_frame workspace_dir ["output"; "-json"] h3)
    as (r4 & h4 & E4 & Hfs4 & _ & Hio4 & _).
  rewrite E4.
  assert (fs h4 = fs h /\ io_faults h4 = io_faults h) as Hend
    by (now rewrite Hfs4, Hio4, Hfs3, Hio3, Hfs2, Hio2, Hfs1, Hio1).
  destruct r4 as [o4|e4]; [destruct (outputs_summary o4)|]; exact Hend.
Qed.

(** X2. With dry-run off, the workflow runs [init], [plan -out=tfplan],
    [apply -auto-approve tfplan] and [output -json] in this order in the
    workspace, and stops at the first of the first three that does not exit
    with code 0, returning a failure that names that step; a later step is
    never run after a failed one, so [apply] runs only on a saved plan. *)
Theorem workflow_stops_at_first_failure :
  forall (workspace_dir : string) (h : host),
    DRY_RUN_MODE = false ->
    exists (result : outcome) (h' : host) (added : list (string * list string)),
      _run_terraform_workflow workspace_dir h = (result, h') /\
      calls h' = calls h ++ added /\
      match stdout_if_ok (terraform (fs h) workspace_dir init_command) with
      | None =>
          added = [(workspace_dir, init_command)] /\
          result = Failure ("Terraform init failed:" +:+ nl +:+
                            failure_text (terraform (fs h) workspace_dir init_command))
      | Some _ =>
      match stdout_if_ok (terraform (fs h) workspace_dir plan_command) with
      | None =>
          added = [(workspace_dir, init_command); (workspace_dir, plan_command)] /\
          result = Failure ("Terraform plan failed:" +:+ nl +:+
                            failure_text (terraform (fs h) workspace_dir plan_command))
      | Some _ =>
      match stdout_if_ok (terraform (fs h) workspace_dir apply_command) with
      | None =>
          added = [(workspace_dir, init_command); (workspace_dir, plan_command);
                   (workspace_dir, apply_command)] /\
          result = Failure ("Terraform apply failed:" +:+ nl +:+
                            failure_text (terraform (fs h) workspace_dir apply_command))
      | Some _ =>
          added = [(workspace_dir, init_command); (workspace_dir, plan_command);
                   (workspace_dir, apply_command); (workspace_dir, ["output"; "-json"])] /\
          (forall output output_str,
             stdout_if_ok (terraform (fs h) workspace_dir ["output"; "-json"]) = Some output ->
             outputs_summary output = Some output_str ->
             result = Success output_str)
      end end end.
Proof.
  intros workspace_dir h Hdry. unfold _run_terraform_workflow. rewrite Hdry.
  set (h0 := log INFO _ h).
  destruct (run_terraform_frame workspace_dir init_command h0)
    as (r1 & h1 & E1 & Hfs1 & Hc1 & _ & _ & _ & _ & Hr1).
  fold init_command plan_command apply_command. rewrite E1.
  change (fs h0) with (fs h) in *. change (calls h0) with (calls h) in *.
  destruct (stdout_if_ok (terraform (fs h) workspace_dir init_command)) as [out1|];
    subst r1; [|eexists _, _, _; split; [reflexivity|]; split; [exact Hc1|]; now split].
  destruct (run_terraform_frame workspace_dir plan_command h1)
    as (r2 & h2 & E2 & Hfs2 & Hc2 & _ & _ & _ & _ & Hr2).
  rewrite E2. rewrite Hfs1 in Hr2. rewrite Hc1, <- app_assoc in Hc2. cbn [app] in Hc2.
  destruct (stdout_if_ok (terraform (fs h) workspace_dir plan_command)) as [out2|];
    subst r2; [|eexists _, _, _; split; [reflexivity|]; split; [exact Hc2|]; now split].
  destruct (run_terraform_frame workspace_dir apply_command h2)
    as (r3 & h3 & E3 & Hfs3 & Hc3 & _ & _ & _ & _ & Hr3).
  rewrite E3. rewrite Hfs2, Hfs1 in Hr3. rewrite Hc2, <- app_assoc in Hc3. cbn [app] in Hc3.
  destruct (stdout_if_ok (terraform (fs h) workspace_dir apply_command)) as [out3|];
    subst r3; [|eexists _, _, _; split; [reflexivity|]; split; [exact Hc3|]; now split].
  destruct (run_terraform_frame workspace_dir ["output"; "-json"] h3)
    as (r4 & h4 & E4 & Hfs4 & Hc4 & _ & _ & _ & _ & Hr4).
  rewrite E4. rewrite Hfs3, Hfs2, Hfs1 in Hr4. rewrite Hc3, <- app_assoc in Hc4.
  cbn [app] in Hc4.
  destruct (stdout_if_ok (terraform (fs h) workspace_dir ["output"; "-json"])) as [out4|];
    subst r4.
  - destruct (outputs_summary out4) as [summary|] eqn:Hsum;
      eexists _, _, _; (split; [reflexivity|]); (split; [exact Hc4|]);
      (split; [reflexivity|]); intros output output_str [= <-] Hs; congruence.
  - eexists _, _, _. split; [reflexivity|]. split; [exact Hc4|].
    split; [reflexivity|]. intros output output_str [=].
Qed.

(** ** More about the database provisioner *)




(** X4. On a file system that raises no error the database provisioner
    leaves in the request's workspace a [terraform.tfvars] that begins with
    the request's name and the engine, each between double quotes exactly
    as given (nothing is escaped). The engine is the configuration's
    ["engine"], and ["postgres"] when the configuration is null or has no
    such key. *)
Theorem tfvars_holds_name_and_engine :
  forall (request : ResourceRequest) (h : host),
    io_faults h = [] ->
    exists (files : gmap string string) (rest : string),
      fs (snd (_provision_database request h)) !! workspace_path (id request) = Some files /\
      files !! "terraform.tfvars"
      = Some (nl +:+ "name           = " +:+ dq +:+ name request +:+ dq +:+ nl +:+
              "engine         = " +:+ dq +:+
              match config request with
              | Some settings => default "postgres" (settings !! "engine")
              | None => "postgres"
              end +:+ dq +:+ nl +:+ rest).
Proof.
  intros request h Hio.
  destruct (provision_database_prepares request h Hio)
    as (h1 & files & E & _ & _ & _ & Hf & Htf & _).
  rewrite E. unfold lift.
  destruct (workflow_frame (workspace_path (id request)) h1) as [Hfs _].
  destruct (_run_terraform_workflow (workspace_path (id request)) h1) as [o h2].
  cbn [snd] in *. rewrite Hfs.
  exists files.
  exists (tfvars_elided
            (instance_class_of (default "small" (default ∅ (config request) !! "size")))
            (password_chars 16 (entropy h) (draws h)) +:+ nl).
  split; [exact Hf|]. rewrite Htf. f_equal.
  unfold tfvars. cbn [join].
  rewrite !append_assoc.
  destruct (config request) as [settings|]; cbn [default]; [reflexivity|].
  rewrite lookup_empty. reflexivity.
Qed.

(** ** What a run of the main task keeps *)

Lemma prefix_nil (b : string) : String.prefix "" b = true.
Proof. now destruct b. Qed.

Lemma prefix_append_r (a b c : string) :
  String.prefix a b = true -> String.prefix a (b +:+ c) = true.
Proof.
  revert b. induction a as [|x a IH]; intros b H; [apply prefix_nil|].
  destruct b as [|y b]; [discriminate|].
  rewrite append_cons. cbn in *.
  destruct (ascii_dec x y); [now apply IH | discriminate].
Qed.

Lemma carries_on_refl (request : ResourceRequest) : carries_on request request.
Proof. repeat split; auto. apply prefix_refl. Qed.

Lemma carries_on_claim (request row : ResourceRequest) :
  carries_on request row -> carries_on request (set_status "provisioning" row).
Proof. intros (H1 & H2 & H3 & H4 & H5 & H6 & H7 & H8). repeat split; auto. Qed.

Lemma carries_on_notes (request row : ResourceRequest) (base more s : string) :
  carries_on request row ->
  String.prefix (notes_or_empty request) base = true ->
  s = "provisioning" \/ s = "provisioned" \/ s = "failed" ->
  carries_on request (set_admin_notes (base +:+ more) (set_status s row)).
Proof.
  intros (H1 & H2 & H3 & H4 & H5 & H6 & H7 & H8) Hbase Hs.
  split; [exact H1|]. split; [exact H2|]. split; [exact H3|]. split; [exact H4|].
  split; [exact H5|]. split; [exact H6|]. split.
  - cbn. now apply prefix_append_r.
  - right. exact Hs.
Qed.

Lemma commit_carries (request : ResourceRequest) (request_id : Z)
  (change : ResourceRequest -> ResourceRequest) (w : world) :
  (forall row, carries_on request row -> carries_on request (change row)) ->
  (exists row, query request_id w = Some row /\ carries_on request row) ->
  exists row, query request_id (snd (commit request_id change w)) = Some row /\
              carries_on request row.
Proof.
  intros Hchange (row & Hq & Hrow). unfold query in *.
  assert (Halter : exists row', alter change request_id (rows w) !! request_id = Some row'
                                /\ carries_on request row').
  { exists (change row). rewrite lookup_alter_eq, Hq. split; [reflexivity | auto]. }
  unfold commit. destruct (db_faults w) as [|[e|] rest]; cbn [snd rows]; eauto.
Qed.

Lemma on_exception_carries (request : ResourceRequest) (retries : nat) (request_id : Z)
  (e : string) (w : world) :
  (exists row, query request_id w = Some row /\ carries_on request row) ->
  exists row, query request_id (snd (on_exception retries request_id e w)) = Some row /\
              carries_on request row.
Proof.
  intros (row & Hq & Hrow). unfold on_exception. cbn [snd].
  change (query request_id (wlog ERROR _ w)) with (query request_id w). rewrite Hq.
  apply commit_carries.
  - intros row' Hrow'. unfold error_change.
    apply carries_on_notes; auto. now destruct Hrow as (_ & _ & _ & _ & _ & _ & Hp & _).
  - exists row. now split.
Qed.

Lemma provision_resource_carries (retries : nat) (request_id : Z) (w : world)
  (request : ResourceRequest) :
  query request_id w = Some request ->
  exists row, query request_id (snd (provision_resource retries request_id w)) = Some row /\
              carries_on request row.
Proof.
  intros Hq. unfold provision_resource. rewrite Hq.
  destruct (negb _); [exists request; split; [exact Hq | apply carries_on_refl]|].
  pose proof (commit_carries request request_id (set_status "provisioning") w
                (carries_on_claim request)
                (ex_intro _ request (conj Hq (carries_on_refl request)))) as H1.
  destruct (commit request_id (set_status "provisioning") w) as [[u|e] w1]; cbn [snd] in H1;
    [|now apply on_exception_carries].
  destruct (_provision_by_type (set_status "provisioning" request) (machine w1))
    as [[result|e] h]; [|now apply on_exception_carries].
  assert (H2 : exists row, query request_id (with_machine h w1) = Some row /\
                           carries_on request row) by exact H1.
  pose proof (commit_carries request request_id
                (provisioned_change (set_status "provisioning" request) result)
                (with_machine h w1)) as H3.
  destruct (commit request_id _ (with_machine h w1)) as [[u'|e] w2]; cbn [snd] in H3.
  - cbn [snd]. apply H3; [|exact H2].
    intros row Hrow. destruct result; cbn [provisioned_change];
      apply carries_on_notes; auto; apply prefix_refl.
  - apply on_exception_carries. apply H3; [|exact H2].
    intros row Hrow. destruct result; cbn [provisioned_change];
      apply carries_on_notes; auto; apply prefix_refl.
Qed.

(** X5. The notes of a request only grow at the end: whatever a run of
    [provision_resource] does (skip, success, failure, exception, rejected
    commits), the request is still stored afterwards, its notes begin with
    the notes it had (a null counting as empty), and its id, name,
    resource type, configuration and owner are what they were. *)
Theorem notes_are_append_only :
  forall (retries : nat) (request_id : Z) (w : world) (request : ResourceRequest),
    query request_id w = Some request ->
    exists row,
      query request_id (snd (provision_resource retries request_id w)) = Some row /\
      String.prefix (notes_or_empty request) (notes_or_empty row) = true /\
      id row = id request /\ name row = name request /\
      resource_type row = resource_type request /\ config row = config request /\
      user_id row = user_id request /\ team_id row = team_id request.
Proof.
  intros retries request_id w request Hq.
  destruct (provision_resource_carries retries request_id w request Hq)
    as (row & Hq' & H1 & H2 & H3 & H4 & H5 & H6 & H7 & _).
  exists row. repeat split; assumption.
Qed.

(** X6. The statuses [provision_resource] writes are ["provisioning"],
    ["provisioned"] and ["failed"] and no other: after a run the status of
    the request is the one it had or one of these three, so a run never
    puts a request back to ["pending"] or ["approved"] and never marks it
    ["rejected"] or ["destroyed"]. *)
Theorem statuses_the_task_writes :
  forall (retries : nat) (request_id : Z) (w : world) (request : ResourceRequest),
    query request_id w = Some request ->
    exists row,
      query request_id (snd (provision_resource retries request_id w)) = Some row /\
      (status row = status request \/ status row = "provisioning" \/
       status row = "provisioned" \/ status row = "failed").
Proof.
  intros retries request_id w request Hq.
  destruct (provision_resource_carries retries request_id w request Hq)
    as (row & Hq' & _ & _ & _ & _ & _ & _ & _ & Hst).
  now exists row.
Qed.

Lemma commit_rows (request_id : Z) (change : ResourceRequest -> ResourceRequest)
  (w : world) :
  dom (rows (snd (commit request_id change w))) = dom (rows w) /\
  forall other, other <> request_id ->
    rows (snd (commit request_id change w)) !! other = rows w !! other.
Proof.
  unfold commit. destruct (db_faults w) as [|[e|] rest]; cbn [snd rows];
    (split; [try apply dom_alter_L; reflexivity|]); intros other Hne;
    try reflexivity; now apply lookup_alter_ne.
Qed.

Lemma on_exception_rows (retries : nat) (request_id : Z) (e : string) (w : world) :
  dom (rows (snd (on_exception retries request_id e w))) = dom (rows w) /\
  forall other, other <> request_id ->
    rows (snd (on_exception retries request_id e w)) !! other = rows w !! other.
Proof.
  unfold on_exception. cbn [snd].
  destruct (query request_id (wlog ERROR _ w)) as [request|]; [|now split].
  apply (commit_rows request_id (error_change request e) (wlog ERROR _ w)).
Qed.

(** X7. A run of [provision_resource] for one request leaves every other
    request exactly as it was, and neither adds nor removes a row. *)
Theorem other_requests_untouched :
  forall (retries : nat) (request_id : Z) (w : world),
    dom (rows (snd (provision_resource retries request_id w))) = dom (rows w) /\
    forall other : Z,
      other <> request_id ->
      query other (snd (provision_resource retries request_id w)) = query other w.
Proof.
  intros retries request_id w. unfold provision_resource, query.
  destruct (rows w !! request_id) as [request|] eqn:Hq; [|now split].
  destruct (negb _); [now split|].
  pose proof (commit_rows request_id (set_status "provisioning") w) as [Hd1 Ho1].
  destruct (commit request_id (set_status "provisioning") w) as [[u|e] w1]; cbn [snd] in *.
  2:{ destruct (on_exception_rows retries request_id e w1) as [Hd Ho].
      split; [congruence|]. intros other Hne. rewrite Ho, Ho1; auto. }
  destruct (_provision_by_type (set_status "provisioning" request) (machine w1))
    as [[result|e] h].
  2:{ destruct (on_exception_rows retries request_id e (with_machine h w1)) as [Hd Ho].
      cbn [rows with_machine] in *.
      split; [congruence|]. intros other Hne. rewrite Ho, Ho1; auto. }
  pose proof (commit_rows request_id
                (provisioned_change (set_status "provisioning" request) result)
                (with_machine h w1)) as [Hd2 Ho2].
  cbn [rows with_machine] in *.
  destruct (commit request_id _ (with_machine h w1)) as [[u'|e] w2]; cbn [snd] in *.
  - split; [congruence|]. intros other Hne. rewrite Ho2, Ho1; auto.
  - destruct (on_exception_rows retries request_id e w2) as [Hd Ho].
    split; [congruence|]. intros other Hne. rewrite Ho, Ho2, Ho1; auto.
Qed.

(** ** One run after another *)

Lemma run_of_unapproved (retries : nat) (request_id : Z) (w : world)
  (row : ResourceRequest) :
  query request_id w = Some row -> status row <> "approved" ->
  provision_resource retries request_id w
  = (Returned "skipped" "Request not approved",
     wlog WARNING ("Request " +:+ str request_id +:+ " is not approved, skipping") w).
Proof.
  intros Hq Hst. unfold provision_resource. rewrite Hq.
  now rewrite (not_approved_guard row Hst).
Qed.

Lemma healthy_run_settles_status (retries : nat) (request_id : Z) (w : world)
  (request : ResourceRequest) :
  db_faults w = [] -> query request_id w = Some request -> status request = "approved" ->
  exists row,
    query request_id (snd (provision_resource retries request_id w)) = Some row /\
    status row <> "approved".
Proof.
  intros Hdb Hq Hst. unfold provision_resource.
  rewrite Hq, (approved_guard request Hst), (commit_healthy _ _ w Hdb).
  set (w1 := {| rows := alter (set_status "provisioning") request_id (rows w);
                db_faults := []; machine := machine w |}).
  assert (Hq1 : forall h, query request_id (with_machine h w1)
                          = Some (set_status "provisioning" request)).
  { intros h. unfold query, with_machine, w1. cbn [rows].
    rewrite lookup_alter_eq. unfold query in Hq. now rewrite Hq. }
  destruct (_provision_by_type (set_status "provisioning" request) (machine w1))
    as [[result|e] h].
  - rewrite (commit_healthy _ _ (with_machine h w1) eq_refl). cbn [snd].
    unfold query. cbn [rows]. rewrite lookup_alter_eq.
    specialize (Hq1 h). unfold query in Hq1. rewrite Hq1. cbn [fmap option_fmap option_map].
    eexists. split; [reflexivity|]. destruct result; cbn; discriminate.
  - rewrite (on_exception_healthy retries request_id e (with_machine h w1)
               (set_status "provisioning" request) eq_refl (Hq1 h)).
    cbn [snd]. unfold query. cbn [rows]. rewrite lookup_alter_eq.
    specialize (Hq1 h). unfold query in Hq1. rewrite Hq1. cbn [fmap option_fmap option_map].
    eexists. split; [reflexivity|]. cbn. discriminate.
Qed.

(** X8. On a store that accepts the commits, a request is provisioned at
    most once: whatever the first run of [provision_resource] did, a
    second run for the same id (a retry, a duplicate delivery) returns
    "skipped" or "not found", invokes no tool, writes no file and leaves
    every row as it is. *)
Theorem second_run_changes_nothing :
  forall (first second : nat) (request_id : Z) (w : world),
    db_faults w = [] ->
    let w1 := snd (provision_resource first request_id w) in
    let '(answer, w2) := provision_resource second request_id w1 in
    (answer = Returned "skipped" "Request not approved" \/
     answer = Returned "error" "Request not found") /\
    calls (machine w2) = calls (machine w1) /\
    fs (machine w2) = fs (machine w1) /\
    rows w2 = rows w1.
Proof.
  intros first second request_id w Hdb w1.
  assert (Hcase : (exists row, query request_id w1 = Some row /\ status row <> "approved")
                  \/ query request_id w1 = None).
  { subst w1. destruct (query request_id w) as [request|] eqn:Hq.
    - left. destruct (String.eqb (status request) "approved") eqn:Hst.
      + apply String.eqb_eq in Hst.
        exact (healthy_run_settles_status first request_id w request Hdb Hq Hst).
      + apply String.eqb_neq in Hst.
        rewrite (run_of_unapproved first request_id w request Hq Hst). cbn [snd].
        exists request. split; [exact Hq | exact Hst].
    - right. unfold provision_resource. rewrite Hq. cbn [snd]. exact Hq. }
  destruct Hcase as [(row & Hq1 & Hst1) | Hq1].
  - rewrite (run_of_unapproved second request_id w1 row Hq1 Hst1).
    split; [now left|]. now split.
  - unfold provision_resource. rewrite Hq1.
    split; [now right|]. now split.
Qed.

(** ** The destroy task *)




(** X11. What the database provisioner leaves is what [destroy_resource]
    looks for: after a run of [provision_resource] for a database request
    (stored under its own id, on a machine and a store without faults) the
    workspace of the request exists, whether the tool succeeded, failed or
    only planned, so a later [destroy_resource] does not answer "Workspace
    not found" but invokes the destroy command there. *)
Theorem provisioned_workspace_is_found_by_destroy :
  forall (retries : nat) (request_id : Z) (w : world) (request : ResourceRequest),
    query request_id w = Some request -> id request = request_id ->
    status request = "approved" -> resource_type request = "database" ->
    io_faults (machine w) = [] -> db_faults w = [] ->
    let w1 := snd (provision_resource retries request_id w) in
    path_exists (workspace_path request_id) (machine w1) = true /\
    calls (machine (snd (destroy_resource request_id w1)))
    = calls (machine w1) ++ [(workspace_path request_id, destroy_command)].
Proof.
  intros retries request_id w request Hq Hid Hst Hty Hio Hdb w1.
  assert (H1 : (exists row, query request_id w1 = Some row) /\
               path_exists (workspace_path request_id) (machine w1) = true).
  { subst w1. unfold provision_resource.
    rewrite Hq, (approved_guard request Hst), (commit_healthy _ _ w Hdb).
    cbn [machine]. unfold _provision_by_type. cbv zeta. cbn [resource_type set_status].
    rewrite Hty. change (String.eqb "database" "database") with true. cbv iota.
    destruct (provision_database_prepares (set_status "provisioning" request) (machine w) Hio)
      as (h1 & files & E & _ & _ & _ & Hf & _).
    rewrite E. unfold lift.
    pose proof (workflow_frame (workspace_path (id (set_status "provisioning" request))) h1)
      as [Hfs _].
    destruct (_run_terraform_workflow _ h1) as [result h2]. cbn [snd] in Hfs.
    rewrite commit_healthy by reflexivity. cbn [snd].
    split.
    - unfold query. cbn [rows with_machine]. rewrite !lookup_alter_eq.
      unfold query in Hq. rewrite Hq. cbn. eauto.
    - unfold path_exists. cbn [machine with_machine]. rewrite Hfs.
      cbn [id set_status] in Hf. rewrite Hid in Hf. now rewrite Hf. }
  destruct H1 as [[row Hq1] Hex]. split; [exact Hex|].
  unfold destroy_resource. cbv zeta. rewrite Hq1, Hex. cbn [negb].
  destruct (run_terraform_frame (workspace_path request_id) destroy_command (machine w1))
    as (r & h & E & _ & Hc & _).
  fold destroy_command. rewrite E.
  destruct r as [out|err].
  - pose proof (commit_frame request_id (set_status "destroyed")
                  (with_machine (rmtree (workspace_path request_id) h) w1)) as (Hm & _).
    destruct (commit request_id (set_status "destroyed") _) as [[u|e] w2];
      cbn [snd] in *; rewrite Hm; exact Hc.
  - pose proof (commit_frame request_id (destroy_failed_change row err)
                  (with_machine h w1)) as (Hm & _).
    destruct (commit request_id (destroy_failed_change row err) _) as [[u|e] w2];
      cbn [snd] in *; rewrite Hm; exact Hc.
Qed.

(** ** Where the task writes *)






(** X13. The tool runs only after the claim is committed: when the store
    rejects the first commit of a run (the write of ["provisioning"]), no
    directory or file is written and no tool is invoked; for an approved
    request the run ends in [self.retry] with the store's error. *)
Theorem rejected_claim_provisions_nothing :
  forall (retries : nat) (request_id : Z) (w : world) (e : string)
         (rest : list (option string)),
    db_faults w = Some e :: rest ->
    let '(answer, w') := provision_resource retries request_id w in
    calls (machine w') = calls (machine w) /\
    fs (machine w') = fs (machine w) /\
    draws (machine w') = draws (machine w) /\
    forall request,
      query request_id w = Some request -> status request = "approved" ->
      answer = self_retry retries e 60.
Proof.
  intros retries request_id w e rest Hdb. unfold provision_resource.
  destruct (query request_id w) as [request|] eqn:Hq.
  2:{ cbn. repeat split. intros request [=]. }
  destruct (negb (String.eqb (status request) "approved")) eqn:Hguard.
  { cbn. repeat split. intros request' [= <-] Hst.
    rewrite (approved_guard _ Hst) in Hguard. discriminate. }
  rewrite (commit_rejected _ _ _ _ _ Hdb).
  unfold on_exception. cbv zeta.
  match goal with
  | |- context [match query request_id ?w0 with _ => _ end] =>
      destruct (query request_id w0) as [row|];
      [pose proof (commit_frame request_id (error_change row e) w0) as (Hm & _);
       rewrite Hm|]
  end; cbn; repeat split.
Qed.

(** ** The dashboard and the router *)

(** X14. The dashboard and the router know the same resource types: when
    [handleSubmit] builds a configuration for the type chosen in the form,
    [_provision_by_type] sends a request of that type to one of the three
    provisioners; when it builds none (an empty object), the router
    answers with the unknown-resource-type failure and does nothing. *)
Theorem dashboard_types_are_router_types :
  forall (formData : gmap string string) (request : ResourceRequest) (h : host),
    formData !! "resource_type" = Some (resource_type request) ->
    (handleSubmit_config formData <> ∅ ->
     _provision_by_type request h = _provision_database request h \/
     _provision_by_type request h = _provision_s3 request h \/
     _provision_by_type request h = _provision_k8s_namespace request h) /\
    (handleSubmit_config formData = ∅ ->
     _provision_by_type request h
     = (Ok (Failure ("Unknown resource type: " +:+ resource_type request)), h)).
Proof.
  intros formData request h Hty.
  unfold handleSubmit_config, _provision_by_type. cbv zeta. rewrite Hty.
  destruct (String.eqb (resource_type request) "database") eqn:Hd.
  { apply String.eqb_eq in Hd. rewrite Hd, bool_decide_eq_true_2 by reflexivity.
    split; [now left|]. intros H. now apply insert_non_empty in H. }
  apply String.eqb_neq in Hd.
  rewrite bool_decide_eq_false_2 by congruence.
  destruct (String.eqb (resource_type request) "s3") eqn:Hs.
  { apply String.eqb_eq in Hs. rewrite Hs, bool_decide_eq_true_2 by reflexivity.
    split; [now right; left|]. intros H. now apply insert_non_empty in H. }
  apply String.eqb_neq in Hs.
  rewrite bool_decide_eq_false_2 by congruence.
  destruct (String.eqb (resource_type request) "k8s_namespace") eqn:Hk.
  { apply String.eqb_eq in Hk. rewrite Hk, bool_decide_eq_true_2 by reflexivity.
    split; [now right; right|]. intros H. now apply insert_non_empty in H. }
  apply String.eqb_neq in Hk.
  rewrite bool_decide_eq_false_2 by congruence.
  split; [intros H; now contradict H | reflexivity].
Qed.

End TerraformTasks.

(** ** The web client *)

Lemma js_or_truthy (value : option string) (fallback : string) :
  fallback <> EmptyString -> js_or value fallback <> EmptyString.
Proof. intros Hf. destruct value as [[|c s]|]; cbn; congruence. Qed.

(** X15. The dashboard never submits an empty setting: every string in
    the configuration [handleSubmit] builds is non-empty, a field left
    empty or never touched being replaced by its default. *)
Theorem submitted_settings_are_never_empty :
  forall (formData : gmap string string) (key s : string),
    handleSubmit_config formData !! key = Some (JString s) -> s <> EmptyString.
Proof.
  intros formData key s. unfold handleSubmit_config. cbv zeta.
  repeat case_bool_decide; intros Hkey;
    repeat (apply lookup_insert_Some in Hkey as [[_ Hkey]|[_ Hkey]]);
    try rewrite lookup_empty in Hkey; try discriminate Hkey;
    injection Hkey as <-; apply js_or_truthy; discriminate.
Qed.

Lemma filter_length_le {A} (f : A -> bool) (l : list A) :
  (length (List.filter f l) <= length l)%nat.
Proof. induction l as [|a l IH]; cbn; [lia|]. destruct (f a); cbn; lia. Qed.

(** X16. The cards of the admin page do not add up in general: pending,
    approved and provisioned together are at most the total, and they
    reach it exactly when every loaded request has one of these three
    statuses; a request that is provisioning, failed, rejected or
    destroyed is counted in the total only. *)
Theorem stats_cards_cover_three_statuses :
  forall requests : list ResourceRequest,
    (pending (stats requests) + approved (stats requests)
     + provisioned (stats requests) <= total (stats requests))%nat /\
    ((pending (stats requests) + approved (stats requests)
      + provisioned (stats requests) = total (stats requests))%nat <->
     Forall (fun r => status r = "pending" \/ status r = "approved" \/
                      status r = "provisioned") requests).
Proof.
  intros requests. unfold stats. cbn [total pending approved provisioned].
  induction requests as [|r requests [IHle IHeq]]; [split; [cbn; lia|]; now split|].
  pose proof (filter_length_le (fun r => String.eqb (status r) "pending") requests).
  pose proof (filter_length_le (fun r => String.eqb (status r) "approved") requests).
  pose proof (filter_length_le (fun r => String.eqb (status r) "provisioned") requests).
  cbn [List.filter length].
  destruct (String.eqb (status r) "pending") eqn:Hp;
    [apply String.eqb_eq in Hp | apply String.eqb_neq in Hp];
    (destruct (String.eqb (status r) "approved") eqn:Ha;
     [apply String.eqb_eq in Ha | apply String.eqb_neq in Ha]);
    (destruct (String.eqb (status r) "provisioned") eqn:Hv;
     [apply String.eqb_eq in Hv | apply String.eqb_neq in Hv]);
    try congruence; cbn [length]; (split; [lia|]); rewrite Forall_cons;
    split.
  all: try (intros Heq; split; [tauto | apply IHeq; lia]).
  all: try (intros [_ Hall]; apply IHeq in Hall; lia).
  all: try (intros Heq; exfalso; lia).
  all: intros [[?|[?|?]] _]; congruence.
Qed.

(** X17. Signing in: once [authService.login] has stored a non-empty access
    token, the request interceptor gives every request the header
    [Authorization: Bearer <token>], whatever token was stored before and
    whatever the request carried there, and leaves the other headers. *)
Theorem signed_in_requests_carry_the_token :
  forall (access_token : string) (localStorage headers : gmap string string),
    access_token <> EmptyString ->
    request_interceptor (login_stores access_token localStorage) headers
      !! "Authorization" = Some ("Bearer " +:+ access_token) /\
    forall header : string,
      header <> "Authorization" ->
      request_interceptor (login_stores access_token localStorage) headers !! header
      = headers !! header.
Proof.
  intros access_token localStorage headers Hne.
  unfold request_interceptor, login_stores. rewrite lookup_insert_eq.
  destruct access_token as [|c s]; [congruence|]. split.
  - apply lookup_insert_eq.
  - intros header Hh. now rewrite lookup_insert_ne by congruence.
Qed.

(** X18. Signing out: after [logout], and after a response with status 401
    went through the response interceptor, the request interceptor adds
    nothing, so requests no longer carry the token; an error with another
    status, or without a response, leaves the stored token alone. *)
Theorem signed_out_requests_carry_no_token :
  forall (localStorage headers : gmap string string),
    request_interceptor (logout localStorage) headers = headers /\
    request_interceptor (response_interceptor_error (Some 401) localStorage) headers
    = headers /\
    forall status : option Z,
      status <> Some 401 ->
      response_interceptor_error status localStorage = localStorage.
Proof.
  intros localStorage headers.
  assert (Hgone : (delete "user" (delete "token" localStorage) : gmap string string)
                    !! "token" = None).
  { rewrite lookup_delete_ne by discriminate. apply lookup_delete_eq. }
  split; [|split].
  - unfold request_interceptor, logout. now rewrite Hgone.
  - unfold request_interceptor, response_interceptor_error.
    rewrite bool_decide_eq_true_2 by reflexivity. now rewrite Hgone.
  - intros status Hs. unfold response_interceptor_error.
    now rewrite bool_decide_eq_false_2.
Qed.

(** ** The properties at the sample data *)

(** The sample deployment: dry-run on, as in the listing. *)
Local Abbreviation sample_provision tool :=
  (provision_resource sample_base_dir true tool no_summary same_outcome
     no_provider_tf no_provisioner no_provisioner).
Local Abbreviation sample_route :=
  (_provision_by_type sample_base_dir true tool_succeeds no_summary same_outcome
     no_provider_tf no_provisioner no_provisioner).
Local Abbreviation sample_workflow tool :=
  (_run_terraform_workflow true tool no_summary same_outcome).
Local Abbreviation sample_destroy tool := (destroy_resource sample_base_dir tool).
Local Abbreviation sample_interleave :=
  (interleave sample_base_dir true tool_succeeds no_summary same_outcome
     no_provider_tf no_provisioner no_provisioner).

Lemma not_approved_is_skipped_witness :
  exists w',
    sample_provision tool_succeeds 0%nat 1 (sample_world (sample_request "database" "provisioned"))
    = (Returned "skipped" "Request not approved", w') /\
    rows w' = rows (sample_world (sample_request "database" "provisioned")) /\
    fs (machine w') = ∅ /\ calls (machine w') = [].
Proof.
  destruct (not_approved_is_skipped sample_base_dir true tool_succeeds no_summary
              same_outcome no_provider_tf no_provisioner no_provisioner 0%nat 1
              (sample_world (sample_request "database" "provisioned"))
              (sample_request "database" "provisioned"))
    as (w' & E & Hr & _ & _ & Hf & Hc & _).
  - reflexivity.
  - discriminate.
  - exists w'. repeat split; assumption.
Defined.


Lemma create_workspace_idempotent_injective_witness :
  exists h1,
    _create_workspace sample_base_dir 1 "database" sample_host = (Ok sample_workspace, h1) /\
    _create_workspace sample_base_dir 1 "s3" h1 = (Ok sample_workspace, h1) /\
    workspace_path sample_base_dir 2 <> sample_workspace.
Proof.
  destruct (create_workspace_idempotent_injective sample_base_dir 1 "database" "s3"
              sample_host)
    as (h1 & E1 & E2 & _ & _ & _ & Hinj).
  - reflexivity.
  - exists h1. split; [exact E1|]. split; [exact E2|]. apply Hinj. lia.
Defined.

Lemma unknown_type_fails_without_effects_witness :
  exists error,
    sample_route (sample_request "unknown_type" "provisioning") sample_host
    = (Ok (Failure error), sample_host) /\
    error = "Unknown resource type: unknown_type".
Proof.
  destruct (unknown_type_fails_without_effects sample_base_dir true tool_succeeds
              no_summary same_outcome no_provider_tf no_provisioner no_provisioner
              (sample_request "unknown_type" "provisioning") sample_host)
    as (error & E & _ & Herr & _).
  - discriminate.
  - discriminate.
  - discriminate.
  - exists error. split; assumption.
Defined.

Lemma router_dispatches_known_types_witness :
  sample_route (sample_request "s3" "provisioning")
  = no_provisioner (sample_request "s3" "provisioning") /\
  sample_route (sample_request "database" "provisioning")
  = _provision_database sample_base_dir true tool_succeeds no_summary same_outcome
      no_provider_tf (sample_request "database" "provisioning").
Proof.
  split.
  - destruct (router_dispatches_known_types sample_base_dir true tool_succeeds no_summary
                same_outcome no_provider_tf no_provisioner no_provisioner
                (sample_request "s3" "provisioning")) as (_ & Hs3 & _).
    apply Hs3. reflexivity.
  - destruct (router_dispatches_known_types sample_base_dir true tool_succeeds no_summary
                same_outcome no_provider_tf no_provisioner no_provisioner
                (sample_request "database" "provisioning")) as (Hdb & _).
    apply Hdb. reflexivity.
Defined.

Lemma dry_run_stops_after_plan_witness :
  exists h',
    sample_workflow tool_succeeds sample_workspace sample_host
    = (Success ("[DRY RUN] Plan completed successfully." +:+ Str.nl +:+
                "Workspace: " +:+ sample_workspace +:+ Str.nl +:+ Str.nl +:+
                "Plan output:" +:+ Str.nl +:+ "Plan: 1 to add, 0 to change, 0 to destroy."),
       h') /\
    calls h' = [(sample_workspace, init_command); (sample_workspace, plan_command)].
Proof.
  destruct (dry_run_stops_after_plan true tool_succeeds no_summary same_outcome
              sample_workspace sample_host eq_refl)
    as (result & h' & added & E & _ & Hc & _ & Hcase).
  cbn in Hcase. destruct Hcase as [-> ->].
  exists h'. split; [exact E | exact Hc].
Defined.


Lemma claim_excludes_later_readers_witness :
  let a := {| attempt_retries := 0; attempt_request := 1; attempt_stage := Start |} in
  let '(a', b', w') :=
    sample_interleave [true; true; false; true; true] a a
      (sample_world (sample_request "database" "approved")) in
  attempt_stage b' = Done (Returned "skipped" "Request not approved").
Proof.
  intros a.
  destruct (claim_excludes_later_readers sample_base_dir true tool_succeeds no_summary
              same_outcome no_provider_tf no_provisioner no_provisioner
              0%nat 0%nat 1 (sample_world (sample_request "database" "approved"))
              (sample_request "database" "approved") [false; true; true]
              eq_refl eq_refl eq_refl) as (w1 & _ & _ & H).
  fold a in H.
  destruct (sample_interleave [true; true; false; true; true] a a
              (sample_world (sample_request "database" "approved"))) as [[a' b'] w'].
  destruct H as (Hskip & _). apply Hskip. now left.
Defined.



(** ** Where the specification and the listing part *)

(** C1 as stated fails: two attempts on the approved request 1 that both
    read it before either writes both claim it, both run the tool in the
    same workspace and both end with "provisioned"; neither is skipped. *)
Lemma race_both_attempts_claim :
  let a := {| attempt_retries := 0; attempt_request := 1; attempt_stage := Start |} in
  let w := sample_world (sample_request "database" "approved") in
  (let '(a', b', w') := sample_interleave [true; false; true; false] a a w in
   claimed (attempt_stage a') = true /\ claimed (attempt_stage b') = true /\
   option_map status (query 1 w') = Some "provisioning") /\
  (let '(a', b', w') :=
     sample_interleave [true; false; true; false; true; false; true; false] a a w in
   attempt_stage a' = Done (Completed "provisioned") /\
   attempt_stage b' = Done (Completed "provisioned") /\
   calls (machine w')
   = [(sample_workspace, init_command); (sample_workspace, plan_command);
      (sample_workspace, init_command); (sample_workspace, plan_command)]).
Proof. vm_compute. repeat split. Qed.

(** C2 as stated fails: under dry-run the output is not the captured plan
    text. A plan of 2003 characters is cut after the first 2000, so the
    output does not contain it (its end is lost); and when [init] fails,
    as with the tool not installed, [plan] is not run at all and the
    workflow returns a failure. *)
Lemma dry_run_output_is_not_the_plan :
  (exists output h',
     sample_workflow tool_long_plan sample_workspace sample_host = (Success output, h') /\
     calls h' = [(sample_workspace, init_command); (sample_workspace, plan_command)] /\
     String.length long_plan = 2003%nat /\
     output <> long_plan /\
     Str.contains long_plan output = false /\
     Str.contains "END" output = false) /\
  (exists error h',
     sample_workflow tool_missing sample_workspace sample_host = (Failure error, h') /\
     calls h' = [(sample_workspace, init_command)]).
Proof.
  split.
  - eexists _, _. split; [vm_compute; reflexivity|].
    split; [reflexivity|]. split; [vm_compute; reflexivity|].
    split; [vm_compute; discriminate|].
    split; vm_compute; reflexivity.
  - eexists _, _. split; [vm_compute; reflexivity | reflexivity].
Qed.

(** C5 as stated fails: a request whose resource type is the spec's
    ["object_storage"] (or ["namespace"]) gets the unknown-type answer. *)
Lemma object_storage_is_unknown :
  sample_route (sample_request "object_storage" "provisioning") sample_host
  = (Ok (Failure "Unknown resource type: object_storage"), sample_host) /\
  sample_route (sample_request "namespace" "provisioning") sample_host
  = (Ok (Failure "Unknown resource type: namespace"), sample_host).
Proof. split; reflexivity. Qed.



(** ** The further properties at the sample data *)

Local Abbreviation sample_database tool :=
  (_provision_database sample_base_dir true tool no_summary same_outcome no_provider_tf).
Local Abbreviation approved_with_notes :=
  (set_admin_notes "Approved by admin" (sample_request "database" "approved")).
Local Abbreviation two_requests :=
  {| rows := <[2 := sample_request "s3" "pending"]>
               {[ 1 := sample_request "database" "approved" ]};
     db_faults := []; machine := sample_host |}.
Local Abbreviation store_raising faults request :=
  {| rows := {[ 1 := request ]}; db_faults := faults; machine := sample_host |}.
Local Abbreviation disk_full := (Some "[Errno 28] No space left on device").


Lemma workflow_stops_at_first_failure_witness :
  exists h',
    _run_terraform_workflow false tool_fails no_summary same_outcome sample_workspace
      sample_host
    = (Failure ("Terraform init failed:" +:+ Str.nl
                +:+ "Error: No valid credential sources found"), h') /\
    calls h' = [(sample_workspace, init_command)].
Proof.
  destruct (workflow_stops_at_first_failure false tool_fails no_summary same_outcome
              sample_workspace sample_host eq_refl)
    as (result & h' & added & E & Hc & Hadded & Hresult).
  exists h'. rewrite E, Hresult, Hc, Hadded. split; reflexivity.
Defined.


Lemma tfvars_holds_name_and_engine_witness :
  exists files rest,
    fs (snd (sample_database tool_succeeds (sample_request "database" "provisioning")
               sample_host)) !! workspace_path sample_base_dir 1 = Some files /\
    files !! "terraform.tfvars"
    = Some (Str.nl +:+ "name           = " +:+ Str.dq +:+ "testdb" +:+ Str.dq +:+ Str.nl
            +:+ "engine         = " +:+ Str.dq +:+ "postgres" +:+ Str.dq +:+ Str.nl
            +:+ rest).
Proof.
  exact (tfvars_holds_name_and_engine sample_base_dir true tool_succeeds no_summary
           same_outcome no_provider_tf (sample_request "database" "provisioning")
           sample_host eq_refl).
Defined.

Lemma notes_are_append_only_witness :
  exists row,
    query 1 (snd (sample_provision tool_fails 0%nat 1 (sample_world approved_with_notes)))
    = Some row /\
    String.prefix "Approved by admin" (notes_or_empty row) = true /\
    name row = "testdb".
Proof.
  destruct (notes_are_append_only sample_base_dir true tool_fails no_summary same_outcome
              no_provider_tf no_provisioner no_provisioner 0%nat 1
              (sample_world approved_with_notes) approved_with_notes eq_refl)
    as (row & Hq & Hp & _ & Hn & _).
  exists row. split; [exact Hq|]. split; [exact Hp | exact Hn].
Defined.

Lemma statuses_the_task_writes_witness :
  exists row,
    query 1 (snd (sample_provision tool_fails 0%nat 1
                    (sample_world (sample_request "database" "approved"))))
    = Some row /\
    (status row = "approved" \/ status row = "provisioning" \/
     status row = "provisioned" \/ status row = "failed").
Proof.
  exact (statuses_the_task_writes sample_base_dir true tool_fails no_summary same_outcome
           no_provider_tf no_provisioner no_provisioner 0%nat 1
           (sample_world (sample_request "database" "approved"))
           (sample_request "database" "approved") eq_refl).
Defined.

Lemma other_requests_untouched_witness :
  query 2 (snd (sample_provision tool_succeeds 0%nat 1 two_requests))
  = Some (sample_request "s3" "pending").
Proof.
  destruct (other_requests_untouched sample_base_dir true tool_succeeds no_summary
              same_outcome no_provider_tf no_provisioner no_provisioner 0%nat 1
              two_requests) as [_ Hother].
  rewrite (Hother 2) by discriminate. reflexivity.
Defined.

Lemma second_run_changes_nothing_witness :
  let w1 := snd (sample_provision tool_succeeds 0%nat 1
                   (sample_world (sample_request "database" "approved"))) in
  let '(answer, w2) := sample_provision tool_succeeds 1%nat 1 w1 in
  (answer = Returned "skipped" "Request not approved" \/
   answer = Returned "error" "Request not found") /\
  calls (machine w2) = calls (machine w1) /\
  fs (machine w2) = fs (machine w1) /\
  rows w2 = rows w1.
Proof.
  exact (second_run_changes_nothing sample_base_dir true tool_succeeds no_summary
           same_outcome no_provider_tf no_provisioner no_provisioner 0%nat 1%nat 1
           (sample_world (sample_request "database" "approved")) eq_refl).
Defined.



Lemma provisioned_workspace_is_found_by_destroy_witness :
  let w1 := snd (sample_provision tool_fails 0%nat 1
                   (sample_world (sample_request "database" "approved"))) in
  path_exists (workspace_path sample_base_dir 1) (machine w1) = true /\
  calls (machine (snd (sample_destroy tool_fails 1 w1)))
  = calls (machine w1) ++ [(workspace_path sample_base_dir 1, destroy_command)].
Proof.
  exact (provisioned_workspace_is_found_by_destroy sample_base_dir true tool_fails
           no_summary same_outcome no_provider_tf no_provisioner no_provisioner 0%nat 1
           (sample_world (sample_request "database" "approved"))
           (sample_request "database" "approved")
           eq_refl eq_refl eq_refl eq_refl eq_refl eq_refl).
Defined.


Lemma rejected_claim_provisions_nothing_witness :
  let '(answer, w') :=
    sample_provision tool_succeeds 0%nat 1
      (store_raising [Some "database is locked"] (sample_request "database" "approved")) in
  calls (machine w') = [] /\ fs (machine w') = ∅ /\
  answer = Retry "database is locked" 60.
Proof.
  pose proof (rejected_claim_provisions_nothing sample_base_dir true tool_succeeds
                no_summary same_outcome no_provider_tf no_provisioner no_provisioner
                0%nat 1
                (store_raising [Some "database is locked"]
                   (sample_request "database" "approved"))
                "database is locked" [] eq_refl) as H.
  destruct (sample_provision tool_succeeds 0%nat 1 _) as [answer w'].
  destruct H as (Hc & Hfs & _ & Hanswer).
  split; [exact Hc|]. split; [exact Hfs|].
  exact (Hanswer (sample_request "database" "approved") eq_refl eq_refl).
Defined.

Lemma dashboard_types_are_router_types_witness :
  sample_route (sample_request "object_storage" "provisioning") sample_host
  = (Ok (Failure "Unknown resource type: object_storage"), sample_host).
Proof.
  destruct (dashboard_types_are_router_types sample_base_dir true tool_succeeds no_summary
              same_outcome no_provider_tf no_provisioner no_provisioner
              {[ "resource_type" := "object_storage" ]}
              (sample_request "object_storage" "provisioning") sample_host)
    as [_ Hnone]; [reflexivity|].
  apply Hnone. reflexivity.
Defined.

Lemma submitted_settings_are_never_empty_witness :
  handleSubmit_config {[ "resource_type" := "database"; "engine" := EmptyString ]}
    !! "engine" = Some (JString "postgres") /\
  "postgres" <> EmptyString.
Proof.
  split; [reflexivity|].
  apply (submitted_settings_are_never_empty
           {[ "resource_type" := "database"; "engine" := EmptyString ]} "engine").
  reflexivity.
Defined.

Lemma stats_cards_cover_three_statuses_witness :
  let requests := [sample_request "database" "approved"; sample_request "s3" "failed"] in
  (pending (stats requests) + approved (stats requests) + provisioned (stats requests)
   <= total (stats requests))%nat.
Proof.
  intros requests. exact (proj1 (stats_cards_cover_three_statuses requests)).
Defined.

Lemma signed_in_requests_carry_the_token_witness :
  request_interceptor (login_stores "eyJhbGciOi" {[ "token" := "stale" ]})
    {[ "Content-Type" := "application/json" ]} !! "Authorization"
  = Some "Bearer eyJhbGciOi".
Proof.
  apply (signed_in_requests_carry_the_token "eyJhbGciOi" {[ "token" := "stale" ]}
           {[ "Content-Type" := "application/json" ]}).
  discriminate.
Defined.

Lemma signed_out_requests_carry_no_token_witness :
  response_interceptor_error (Some 500) {[ "token" := "eyJhbGciOi" ]}
  = {[ "token" := "eyJhbGciOi" ]}.
Proof.
  destruct (signed_out_requests_carry_no_token {[ "token" := "eyJhbGciOi" ]} ∅)
    as (_ & _ & Hother).
  apply Hother. discriminate.
Defined.

Lemma run_task_settles_witness :
  fst (run_task sample_base_dir true tool_succeeds no_summary same_outcome no_provider_tf
         no_provisioner no_provisioner 1
         (store_raising [Some "database is locked"] (sample_request "database" "approved")))
  <> Retry "database is locked" 60.
Proof.
  apply (run_task_settles sample_base_dir true tool_succeeds no_summary same_outcome
           no_provider_tf no_provisioner no_provisioner 1).
Defined.

Lemma rejected_commits_leave_provisioning_witness :
  exists e w',
    sample_provision tool_fails 0%nat 1
      (store_raising [None; Some "database is locked"; Some "database is locked"]
         (sample_request "database" "approved"))
    = (Retry e 60, w') /\
    query 1 w' = Some (sample_request "database" "provisioning").
Proof.
  exact (rejected_commits_leave_provisioning sample_base_dir true tool_fails no_summary
           same_outcome no_provider_tf no_provisioner no_provisioner 0%nat 1
           (store_raising [None; Some "database is locked"; Some "database is locked"]
              (sample_request "database" "approved"))
           (sample_request "database" "approved")
           "database is locked" "database is locked" [] eq_refl eq_refl eq_refl).
Defined.

